(** * HelloWorldPanel: the todo webview panel of vscode-todo-igs

    A shallow embedding of [src/panels/HelloWorldPanel.ts]: the singleton
    panel life cycle ([render], [dispose]) and the bridge between webview
    messages and the redux store ([messageListener], [updateWebview],
    [reloadWebview]).

    The class talks to three things that live outside the file: the VS Code
    host (webview panels, their events and their message channel), the redux
    store, and the message and action creators of the sibling modules
    [../todo/store], [../todo/todoTypes] and [./message].  The host and the
    store are part of the state [World]; the creators are section variables. *)

From Stdlib Require Import String.
From stdpp Require Import base option list functions strings.

Local Open Scope string_scope.
Local Open Scope list_scope.
Local Open Scope nat_scope.

(** ** Values imported from the sibling modules *)

(** [TodoScope] of [../todo/todoTypes].  The listener compares the scope of a
    message with [TodoScope.user] and [TodoScope.workspace] only; a message
    comes from the webview as untyped JSON, so the field can hold anything
    else at run time: [other]. *)
Module TodoScope.
Inductive t : Type :=
| user
| workspace
| other (raw : string).
End TodoScope.

(** [MessageActionsFromWebview] of [./message]: the five tags the switch of
    the listener knows, and [other] for every value that reaches [default]. *)
Module MessageActionsFromWebview.
Inductive t : Type :=
| addTodo
| deleteTodo
| toggleTodo
| editTodo
| reorderTodo
| other (raw : string).
End MessageActionsFromWebview.

(** [ViewColumn] of the host API. *)
Module ViewColumn.
Inductive t : Type := Active | Beside | One | Two | Three.
End ViewColumn.

(** Panels are identified by the order in which [render] built them, stores
    by an opaque reference. *)
Abbreviation handle := nat (only parsing).
Abbreviation StoreRef := nat (only parsing).

(** A [Disposable] held in [_disposables].  The class only ever pushes the two
    event subscriptions the constructor makes on its own panel. *)
Inductive Disposable : Type :=
| onDidDispose_subscription (panel : handle)
| onDidReceiveMessage_subscription (panel : handle).

(** [Array.prototype.pop]: the last element (undefined on an empty array) and
    the array without it. *)
Definition pop {A} (l : list A) : option A * list A := (last l, removelast l).

Section Panel.

(** The payload of a webview message, a redux action, the root state of the
    store, the state of one slice, and a message for the webview. *)
Context {Payload Action RootState TodoSlice MessageToWebview : Type}.

(** The reducer of the store (external: [../todo/store]). *)
Variable reducer : RootState → Action → RootState.

(** [userActions] and [workspaceActions] of [../todo/store]: one action
    creator per message tag. *)
Record StoreActions : Type := {
  addTodo : Payload → Action;
  deleteTodo : Payload → Action;
  toggleTodo : Payload → Action;
  editTodo : Payload → Action;
  reorderTodo : Payload → Action;
}.
Variables userActions workspaceActions : StoreActions.

(** [messagesToWebview] of [./message]. *)
Record MessagesToWebview : Type := {
  msg_reloadWebview : RootState → MessageToWebview;
  msg_syncData : TodoSlice → MessageToWebview;
}.
Variable messagesToWebview : MessagesToWebview.

(** The extension context, URIs and the HTML document; the document is
    built by [_getWebviewContent] from [getUri] and [getNonce] of
    [../utilities]. *)
Context {ExtensionContext Uri Html : Type}.
Variable extensionUri : ExtensionContext → Uri.
Variable Uri_joinPath : Uri → string → Uri.
Variable _getWebviewContent : handle → Uri → Html.

(** [Message<MessageActionsFromWebview, TodoScope>]. *)
Record Message : Type := {
  type : MessageActionsFromWebview.t;
  scope : TodoScope.t;
  payload : Payload;
}.

(** *** The redux store *)

(** What the class sees of an [EnhancedStore]: [getState] and [dispatch].
    [dispatched] is the history of the actions it received. *)
Record Store : Type := {
  getState : RootState;
  dispatched : list Action;
}.

Definition dispatch (a : Action) (s : Store) : Store :=
  {| getState := reducer (getState s) a;
     dispatched := dispatched s ++ [a] |}.

(** *** The host's webview panel *)

Record WebviewOptions : Type := {
  enableScripts : bool;
  localResourceRoots : list Uri;
  retainContextWhenHidden : bool;
  enableFindWidget : bool;
}.

(** A [WebviewPanel].  [disposed] is the host's flag behind [dispose()];
    [onDidDispose] and [onDidReceiveMessage] say whether the listener the
    constructor registered on the event is still attached. *)
Record WebviewPanel : Type := {
  viewType : string;
  title : string;
  viewColumn : ViewColumn.t;
  options : WebviewOptions;
  html : option Html;
  active : bool;
  disposed : bool;
  onDidDispose : bool;
  onDidReceiveMessage : bool;
}.

Definition set_html (x : Html) (p : WebviewPanel) : WebviewPanel :=
  {| viewType := viewType p; title := title p; viewColumn := viewColumn p;
     options := options p; html := Some x; active := active p;
     disposed := disposed p; onDidDispose := onDidDispose p;
     onDidReceiveMessage := onDidReceiveMessage p |}.

Definition set_disposed (b : bool) (p : WebviewPanel) : WebviewPanel :=
  {| viewType := viewType p; title := title p; viewColumn := viewColumn p;
     options := options p; html := html p; active := active p;
     disposed := b; onDidDispose := onDidDispose p;
     onDidReceiveMessage := onDidReceiveMessage p |}.

Definition set_onDidDispose (b : bool) (p : WebviewPanel) : WebviewPanel :=
  {| viewType := viewType p; title := title p; viewColumn := viewColumn p;
     options := options p; html := html p; active := active p;
     disposed := disposed p; onDidDispose := b;
     onDidReceiveMessage := onDidReceiveMessage p |}.

Definition set_onDidReceiveMessage (b : bool) (p : WebviewPanel) : WebviewPanel :=
  {| viewType := viewType p; title := title p; viewColumn := viewColumn p;
     options := options p; html := html p; active := active p;
     disposed := disposed p; onDidDispose := onDidDispose p;
     onDidReceiveMessage := b |}.

(** *** The class and the world it runs in *)

(** An instance of [HelloWorldPanel].  The constructor is private and
    [render] hands it a fresh panel each time, so an instance and its
    [WebviewPanel] share one [handle]. *)
Record HelloWorldPanel : Type := {
  _panel : WebviewPanel;
  _disposables : list Disposable;
  _store : StoreRef;
}.

Definition with_panel (f : WebviewPanel → WebviewPanel) (o : HelloWorldPanel)
  : HelloWorldPanel :=
  {| _panel := f (_panel o); _disposables := _disposables o; _store := _store o |}.

Definition with_disposables (ds : list Disposable) (o : HelloWorldPanel)
  : HelloWorldPanel :=
  {| _panel := _panel o; _disposables := ds; _store := _store o |}.

(** The state: the static [HelloWorldPanel.currentPanel], every instance
    built so far, the stores, and what the class has done to the host:
    messages posted to a webview, [reveal] calls, subscriptions disposed,
    and [console.error] lines. *)
Record World : Type := {
  currentPanel : option handle;
  heap : list HelloWorldPanel;
  stores : StoreRef → Store;
  posted : list (handle * MessageToWebview);
  revealed : list (handle * ViewColumn.t);
  disposed_subscriptions : list Disposable;
  console : list string;
}.

Definition set_currentPanel (c : option handle) (w : World) : World :=
  {| currentPanel := c; heap := heap w; stores := stores w; posted := posted w;
     revealed := revealed w;
     disposed_subscriptions := disposed_subscriptions w; console := console w |}.

Definition set_heap (h : list HelloWorldPanel) (w : World) : World :=
  {| currentPanel := currentPanel w; heap := h; stores := stores w;
     posted := posted w; revealed := revealed w;
     disposed_subscriptions := disposed_subscriptions w; console := console w |}.

Definition set_stores (s : StoreRef → Store) (w : World) : World :=
  {| currentPanel := currentPanel w; heap := heap w; stores := s;
     posted := posted w; revealed := revealed w;
     disposed_subscriptions := disposed_subscriptions w; console := console w |}.

(** [console.error(line)] *)
Definition console_error (line : string) (w : World) : World :=
  {| currentPanel := currentPanel w; heap := heap w; stores := stores w;
     posted := posted w; revealed := revealed w;
     disposed_subscriptions := disposed_subscriptions w;
     console := console w ++ [line] |}.

(** [panel.webview.postMessage(m)] on the panel [h] *)
Definition postMessage (h : handle) (m : MessageToWebview) (w : World) : World :=
  {| currentPanel := currentPanel w; heap := heap w; stores := stores w;
     posted := posted w ++ [(h, m)]; revealed := revealed w;
     disposed_subscriptions := disposed_subscriptions w; console := console w |}.

(** [panel.reveal(column)] on the panel [h] *)
Definition reveal (h : handle) (column : ViewColumn.t) (w : World) : World :=
  {| currentPanel := currentPanel w; heap := heap w; stores := stores w;
     posted := posted w; revealed := revealed w ++ [(h, column)];
     disposed_subscriptions := disposed_subscriptions w; console := console w |}.

(** [store.dispatch(a)] on the store [r] *)
Definition store_dispatch (r : StoreRef) (a : Action) (w : World) : World :=
  set_stores (<[r := dispatch a (stores w r)]> (stores w)) w.

(** [disposable.dispose()] on an event subscription: the listener is taken
    off the event of its panel. *)
Definition Disposable_dispose (d : Disposable) (w : World) : World :=
  let detach :=
    match d with
    | onDidDispose_subscription h =>
        alter (with_panel (set_onDidDispose false)) h (heap w)
    | onDidReceiveMessage_subscription h =>
        alter (with_panel (set_onDidReceiveMessage false)) h (heap w)
    end in
  {| currentPanel := currentPanel w; heap := detach; stores := stores w;
     posted := posted w; revealed := revealed w;
     disposed_subscriptions := disposed_subscriptions w ++ [d];
     console := console w |}.

(** The world before the extension did anything. *)
Definition init (s : StoreRef → Store) : World :=
  {| currentPanel := None; heap := []; stores := s; posted := [];
     revealed := []; disposed_subscriptions := []; console := [] |}.

(** *** Methods *)

(** [reloadWebview()] *)
Definition reloadWebview (this : handle) (w : World) : option World :=
  o ← heap w !! this;
  let currentState := getState (stores w (_store o)) in
  Some (postMessage this (msg_reloadWebview messagesToWebview currentState) w).

(** [this._panel.webview] as [updateWebview] reads it: the getter of the host
    raises "Webview is disposed" once the panel is disposed.  [None] is the
    raised error. *)
Definition webview (this : handle) (w : World) : option handle :=
  o ← heap w !! this;
  if disposed (_panel o) then None else Some this.

(** [updateWebview(newSliceState)] *)
Definition updateWebview (this : handle) (newSliceState : TodoSlice) (w : World)
  : option World :=
  webview ← webview this w;
  Some (postMessage webview (msg_syncData messagesToWebview newSliceState) w).

(** The arrow function [_setWebviewMessageListener] registers on
    [webview.onDidReceiveMessage]. *)
Definition messageListener (this : handle) (message : Message) (w : World)
  : option World :=
  let storeActions :=
    match scope message with
    | TodoScope.user => Some userActions
    | TodoScope.workspace => Some workspaceActions
    | TodoScope.other _ => None
    end in
  match storeActions with
  | None => Some (console_error "Action scope not found" w)
  | Some storeActions =>
      let this_store_dispatch a :=
        o ← heap w !! this; Some (store_dispatch (_store o) a w) in
      match type message with
      | MessageActionsFromWebview.addTodo =>
          this_store_dispatch (addTodo storeActions (payload message))
      | MessageActionsFromWebview.deleteTodo =>
          this_store_dispatch (deleteTodo storeActions (payload message))
      | MessageActionsFromWebview.toggleTodo =>
          this_store_dispatch (toggleTodo storeActions (payload message))
      | MessageActionsFromWebview.editTodo =>
          this_store_dispatch (editTodo storeActions (payload message))
      | MessageActionsFromWebview.reorderTodo =>
          this_store_dispatch (reorderTodo storeActions (payload message))
      | MessageActionsFromWebview.other _ =>
          Some (console_error "Action not found" w)
      end
  end.

(** [_setWebviewMessageListener(webview)]: the listener is attached and its
    subscription pushed on [this._disposables]. *)
Definition _setWebviewMessageListener (this : handle) (w : World) : World :=
  set_heap
    (alter (λ o, with_disposables
                   (_disposables o ++ [onDidReceiveMessage_subscription this])
                   (with_panel (set_onDidReceiveMessage true) o))
           this (heap w)) w.

(** The [while] loop of [dispose]: one iteration per unit of fuel. *)
Fixpoint dispose_loop (fuel : nat) (this : handle) (w : World) : option World :=
  match fuel with
  | 0 => None
  | S fuel =>
      o ← heap w !! this;
      if length (_disposables o) =? 0 then Some w
      else
        let '(disposable, rest) := pop (_disposables o) in
        let w := set_heap (<[this := with_disposables rest o]> (heap w)) w in
        let w :=
          match disposable with
          | Some d => Disposable_dispose d w
          | None => w
          end in
        dispose_loop fuel this w
  end.

(** [panel.dispose()] of the host, as the VS Code API documents it: disposing
    a panel fires its [onDidDispose] event, whether the user closes the panel
    or the extension calls [dispose()], and a panel is disposed once only.  So
    nothing happens on a panel that is disposed already; otherwise the panel
    is marked and the event fires, which runs [listener] when the listener of
    the instance is still attached. *)
Definition WebviewPanel_dispose (listener : World → option World)
    (h : handle) (w : World) : option World :=
  o ← heap w !! h;
  if disposed (_panel o) then Some w
  else
    let w := set_heap (alter (with_panel (set_disposed true)) h (heap w)) w in
    if onDidDispose (_panel o) then listener w else Some w.

(** [dispose()].  The instance's own listener on [onDidDispose] is
    [() => this.dispose()], so [this._panel.dispose()] comes back into
    [dispose]; [fuel] bounds the depth of that recursion. *)
Fixpoint dispose_rec (fuel : nat) (this : handle) (w : World) : option World :=
  match fuel with
  | 0 => None
  | S fuel =>
      let w := set_currentPanel None w in
      w ← WebviewPanel_dispose (dispose_rec fuel this) this w;
      o ← heap w !! this;
      dispose_loop (S (length (_disposables o))) this w
  end.

(** The host marks the panel before the event fires, so the nested call
    finds it disposed and goes no deeper: two levels are all there is. *)
Definition dispose (this : handle) (w : World) : option World :=
  dispose_rec 2 this w.

(** [window.createWebviewPanel(viewType, title, showOptions, options)] *)
Definition createWebviewPanel (viewType : string) (title : string)
    (showOptions : ViewColumn.t) (options : WebviewOptions) : WebviewPanel :=
  {| viewType := viewType; title := title; viewColumn := showOptions;
     options := options; html := None; active := true; disposed := false;
     onDidDispose := false; onDidReceiveMessage := false |}.

(** The private constructor; the new instance takes the next handle. *)
Definition constructor (panel : WebviewPanel) (context : ExtensionContext)
    (store : StoreRef) (w : World) : option (handle * World) :=
  let this := length (heap w) in
  let w :=
    set_heap (heap w ++ [{| _panel := panel; _disposables := []; _store := store |}]) w in
  let extensionUri := extensionUri context in
  (* this._panel.onDidDispose(() => this.dispose(), null, this._disposables) *)
  let w :=
    set_heap
      (alter (λ o, with_disposables
                     (_disposables o ++ [onDidDispose_subscription this])
                     (with_panel (set_onDidDispose true) o))
             this (heap w)) w in
  (* this._panel.webview.html = this._getWebviewContent(...) *)
  let w :=
    set_heap
      (alter (with_panel (set_html (_getWebviewContent this extensionUri)))
             this (heap w)) w in
  let w := _setWebviewMessageListener this w in
  w ← reloadWebview this w;
  Some (this, w).

(** [HelloWorldPanel.render(context, store)] *)
Definition render (context : ExtensionContext) (store : StoreRef) (w : World)
  : option World :=
  let extensionUri := extensionUri context in
  match currentPanel w with
  | Some current =>
      o ← heap w !! current;
      if active (_panel o) then
        WebviewPanel_dispose (dispose current) current w
      else
        Some (reveal current ViewColumn.Beside w)
  | None =>
      let panel :=
        createWebviewPanel "showVscodeTodoWebview" "Todo" ViewColumn.Beside
          {| enableScripts := true;
             localResourceRoots :=
               [Uri_joinPath extensionUri "out";
                Uri_joinPath extensionUri "webview-ui/build"];
             retainContextWhenHidden := true;
             enableFindWidget := true |} in
      '(this, w) ← constructor panel context store w;
      Some (set_currentPanel (Some this) w)
  end.

(** *** What the properties below speak about *)

(** A message is recognized when its scope is one of the two scopes and
    its tag one of the five tags of the switch. *)
Definition known_scope (s : TodoScope.t) : bool :=
  match s with
  | TodoScope.user | TodoScope.workspace => true
  | TodoScope.other _ => false
  end.

Definition known_type (t : MessageActionsFromWebview.t) : bool :=
  match t with
  | MessageActionsFromWebview.other _ => false
  | _ => true
  end.

Definition recognized (message : Message) : bool :=
  known_scope (scope message) && known_type (type message).

(** Between [w] and [w'] the store [r] received exactly the actions [acts],
    in that order, and nothing else happened. *)
Definition dispatches (r : StoreRef) (acts : list Action) (w w' : World) : Prop :=
  dispatched (stores w' r) = dispatched (stores w r) ++ acts ∧
  getState (stores w' r) = foldl reducer (getState (stores w r)) acts ∧
  (∀ r', r' ≠ r → stores w' r' = stores w r') ∧
  currentPanel w' = currentPanel w ∧
  heap w' = heap w ∧
  posted w' = posted w ∧
  revealed w' = revealed w ∧
  disposed_subscriptions w' = disposed_subscriptions w ∧
  console w' = console w.

(** Between [w] and [w'] exactly the messages [ms] were posted, and nothing
    else happened. *)
Definition posts (ms : list (handle * MessageToWebview)) (w w' : World) : Prop :=
  posted w' = posted w ++ ms ∧
  stores w' = stores w ∧
  currentPanel w' = currentPanel w ∧
  heap w' = heap w ∧
  revealed w' = revealed w ∧
  disposed_subscriptions w' = disposed_subscriptions w ∧
  console w' = console w.

(** A webview panel is live until the host has disposed it. *)
Definition live (o : HelloWorldPanel) : Prop := disposed (_panel o) = false.

Definition live_count (w : World) : nat := length (filter live (heap w)).

(** The invariant of the singleton: a live panel is the current panel, and
    the current panel is an instance that exists. *)
Definition singleton (w : World) : Prop :=
  (∀ h o, heap w !! h = Some o → live o → currentPanel w = Some h) ∧
  (∀ h, currentPanel w = Some h → h < length (heap w)).

(** The worlds [render] and [dispose] lead to, from a world where nothing
    has happened yet. *)
Inductive reachable (s : StoreRef → Store) : World → Prop :=
| reachable_init : reachable s (init s)
| reachable_render context store w w' :
    reachable s w → render context store w = Some w' → reachable s w'
| reachable_dispose this w w' :
    reachable s w → dispose this w = Some w' → reachable s w'.

(** The worlds reached when [dispose] is only called on the current panel,
    or while no panel is current, and when the host may dispose any panel. *)
Inductive reachable_on_current (s : StoreRef → Store) : World → Prop :=
| on_current_init : reachable_on_current s (init s)
| on_current_render context store w w' :
    reachable_on_current s w → render context store w = Some w' →
    reachable_on_current s w'
| on_current_dispose this w w' :
    reachable_on_current s w →
    (∀ h, currentPanel w = Some h → h = this) →
    dispose this w = Some w' →
    reachable_on_current s w'
| on_current_close h w w' :
    reachable_on_current s w →
    WebviewPanel_dispose (dispose h) h w = Some w' →
    reachable_on_current s w'.

(** What disposing may do to an instance: the store it holds and the focus
    of its panel stay, and a disposed panel stays disposed. *)
Definition panel_frame (o o' : HelloWorldPanel) : Prop :=
  _store o' = _store o ∧
  active (_panel o') = active (_panel o) ∧
  (disposed (_panel o) = true → disposed (_panel o') = true).

(** What disposing may do to the world: no instance appears or goes, and
    stores, posted messages, reveals and the console are not touched. *)
Definition dispose_frame (w w' : World) : Prop :=
  Forall2 panel_frame (heap w) (heap w') ∧
  stores w' = stores w ∧
  posted w' = posted w ∧
  revealed w' = revealed w ∧
  console w' = console w.

(** [this] has been disposed of between [w] and [w']: no panel is current,
    the panel of [this] is disposed, its list of disposables is empty and
    the disposables it held in [w] (those of [o]) were disposed, the last
    pushed first. *)
Definition disposed_of (this : handle) (o : HelloWorldPanel) (w w' : World)
  : Prop :=
  currentPanel w' = None ∧
  dispose_frame w w' ∧
  disposed_subscriptions w' =
    disposed_subscriptions w ++ reverse (_disposables o) ∧
  ∃ o', heap w' !! this = Some o' ∧
        _disposables o' = [] ∧
        disposed (_panel o') = true.

(** *** The host's side, and whole runs *)

(** The host moves the focus: [panel.active] of the panel [h] becomes [b]. *)
Definition set_active (b : bool) (p : WebviewPanel) : WebviewPanel :=
  {| viewType := viewType p; title := title p; viewColumn := viewColumn p;
     options := options p; html := html p; active := b;
     disposed := disposed p; onDidDispose := onDidDispose p;
     onDidReceiveMessage := onDidReceiveMessage p |}.

Definition focus (h : handle) (b : bool) (w : World) : World :=
  set_heap (alter (with_panel (set_active b)) h (heap w)) w.

(** The webview of the panel [h] sends [message]: the host hands it to the
    listener [_setWebviewMessageListener] registered, as long as its
    subscription has not been disposed. *)
Definition receiveMessage (h : handle) (message : Message) (w : World)
  : option World :=
  o ← heap w !! h;
  if onDidReceiveMessage (_panel o) then messageListener h message w
  else Some w.


(** An instance as the constructor leaves it: its panel is live, both
    listeners are attached and its disposables are their two subscriptions. *)
Definition built (h : handle) (o : HelloWorldPanel) : Prop :=
  disposed (_panel o) = false ∧
  onDidDispose (_panel o) = true ∧
  onDidReceiveMessage (_panel o) = true ∧
  _disposables o =
    [onDidDispose_subscription h; onDidReceiveMessage_subscription h].

(** An instance as [dispose] leaves it: its panel is disposed, no listener
    is attached and it holds no disposable. *)
Definition spent (o : HelloWorldPanel) : Prop :=
  disposed (_panel o) = true ∧
  onDidDispose (_panel o) = false ∧
  onDidReceiveMessage (_panel o) = false ∧
  _disposables o = [].

(** [o] after [dispose]. *)
Definition dispose_instance (o : HelloWorldPanel) : HelloWorldPanel :=
  with_disposables []
    (with_panel (set_onDidDispose false)
       (with_panel (set_onDidReceiveMessage false)
          (with_panel (set_disposed true) o))).

(** Every instance is as built or spent, and the current panel, when there
    is one, is the instance built last and is live. *)
Definition wellformed (w : World) : Prop :=
  (∀ h o, heap w !! h = Some o → built h o ∨ spent o) ∧
  (∀ h, currentPanel w = Some h →
        S h = length (heap w) ∧ ∃ o, heap w !! h = Some o ∧ built h o).

(** The messages posted to the webview of the panel [h], oldest first. *)
Definition posted_to (h : handle) (w : World) : list MessageToWebview :=
  (filter (λ p, p.1 = h) (posted w)).*2.

(** Each instance that exists was sent [reloadWebview] first, and no message
    is addressed to an instance that does not exist yet. *)
Definition reload_first (w : World) : Prop :=
  ∀ h,
    (h < length (heap w) →
     ∃ state rest,
       posted_to h w = msg_reloadWebview messagesToWebview state :: rest) ∧
    (length (heap w) ≤ h → posted_to h w = []).

(** The worlds of a run of the extension: the extension calls [render],
    [dispose] on any instance and [updateWebview] on any instance; the user
    closes a panel or moves the focus; a webview sends a message. *)
Inductive run (s : StoreRef → Store) : World → Prop :=
| run_init : run s (init s)
| run_render context store w w' :
    run s w → render context store w = Some w' → run s w'
| run_dispose this w w' :
    run s w → dispose this w = Some w' → run s w'
| run_close h w w' :
    run s w → WebviewPanel_dispose (dispose h) h w = Some w' → run s w'
| run_focus h b w :
    run s w → run s (focus h b w)
| run_receive h message w w' :
    run s w → receiveMessage h message w = Some w' → run s w'
| run_update this newSliceState w w' :
    run s w → updateWebview this newSliceState w = Some w' → run s w'.

End Panel.

Arguments StoreActions : clear implicits.
Arguments MessagesToWebview : clear implicits.
Arguments Message : clear implicits.
Arguments Store : clear implicits.
Arguments WebviewOptions : clear implicits.
Arguments WebviewPanel : clear implicits.
Arguments HelloWorldPanel : clear implicits.
Arguments World : clear implicits.

(** ** A concrete extension

    Todos are numbers, an action records the slice it is for and the name of
    its creator, the root state is the list of actions reduced so far, and a
    message for the webview is a tagged payload. *)
Module Sample.

Inductive Action : Type :=
| action (slice : TodoScope.t) (name : string) (payload : nat).

Definition RootState := list Action.
Definition TodoSlice := list nat.

Inductive MessageToWebview : Type :=
| reloadWebview_message (state : RootState)
| syncData_message (slice : TodoSlice).

Definition reducer (s : RootState) (a : Action) : RootState := s ++ [a].

Definition actions_of (slice : TodoScope.t) : StoreActions nat Action :=
  {| addTodo := action slice "addTodo";
     deleteTodo := action slice "deleteTodo";
     toggleTodo := action slice "toggleTodo";
     editTodo := action slice "editTodo";
     reorderTodo := action slice "reorderTodo" |}.

Definition userActions := actions_of TodoScope.user.
Definition workspaceActions := actions_of TodoScope.workspace.

Definition messagesToWebview : MessagesToWebview RootState TodoSlice MessageToWebview :=
  {| msg_reloadWebview := reloadWebview_message;
     msg_syncData := syncData_message |}.

Definition extensionUri (context : unit) : string := "ext".
Definition Uri_joinPath (base : string) (segment : string) : string :=
  String.append base (String.append "/" segment).
Definition _getWebviewContent (webview : handle) (uri : string) : string :=
  String.append "<html>" (String.append uri "</html>").

Abbreviation World := (World Action RootState MessageToWebview string string).

Definition empty_stores (r : StoreRef) : Store Action RootState :=
  {| getState := []; dispatched := [] |}.

Abbreviation listener :=
  (@messageListener nat Action RootState MessageToWebview reducer
     userActions workspaceActions string string).

Abbreviation render :=
  (@render Action RootState TodoSlice MessageToWebview messagesToWebview
     unit string string extensionUri Uri_joinPath _getWebviewContent).

Abbreviation dispose := (@dispose Action RootState MessageToWebview string string).

(** Nothing has happened yet. *)
Definition w0 : World := init empty_stores.

(** One panel is open and has the focus. *)
Definition w1 : World := default w0 (render () 0 w0).

(** The worlds along [run_stale]. *)
Definition w2 : World := default w0 (dispose 0 w1).
Definition w3 : World := default w0 (render () 0 w2).
Definition w4 : World := default w0 (dispose 0 w3).
Definition w5 : World := default w0 (render () 0 w4).

(** The panel of [w1] was disposed twice with a [render] in between, and
    [render] ran once more: a run of
    [render; dispose; render; dispose; render] on the first instance. *)
Definition run_stale : option World :=
  w ← render () 0 w0;
  w ← dispose 0 w;
  w ← render () 0 w;
  w ← dispose 0 w;
  render () 0 w.

Definition add_user : Message nat :=
  {| type := MessageActionsFromWebview.addTodo;
     scope := TodoScope.user; payload := 7 |}.

Definition unknown_tag : Message nat :=
  {| type := MessageActionsFromWebview.other "clearTodos";
     scope := TodoScope.workspace; payload := 0 |}.

End Sample.

(** ** Properties *)

Section Properties.

Context {Payload Action RootState TodoSlice MessageToWebview : Type}.
Context {ExtensionContext Uri Html : Type}.
Context (reducer : RootState → Action → RootState).
Context (userActions workspaceActions : StoreActions Payload Action).
Context (messagesToWebview : MessagesToWebview RootState TodoSlice MessageToWebview).
Context (extensionUri : ExtensionContext → Uri).
Context (Uri_joinPath : Uri → string → Uri).
Context (_getWebviewContent : handle → Uri → Html).

Local Abbreviation World := (World Action RootState MessageToWebview Uri Html).
Local Abbreviation Panel := (HelloWorldPanel Uri Html).
Local Abbreviation listener := (messageListener reducer userActions workspaceActions).
Local Abbreviation render :=
  (render messagesToWebview extensionUri Uri_joinPath _getWebviewContent).
Local Abbreviation constructor :=
  (constructor messagesToWebview extensionUri _getWebviewContent).

Implicit Types (w : World) (o : Panel) (h this : handle) (d : Disposable).

(** *** Frames *)

Global Instance panel_frame_preorder : PreOrder (@panel_frame Uri Html).
Proof.
  split.
  - intros o. unfold panel_frame. auto.
  - intros o1 o2 o3 (Hs1 & Ha1 & Hd1) (Hs2 & Ha2 & Hd2). unfold panel_frame.
    rewrite Hs2, Hs1, Ha2, Ha1. auto.
Qed.

Lemma heap_frame_refl (l : list Panel) : Forall2 panel_frame l l.
Proof. reflexivity. Qed.

Lemma heap_frame_trans (l1 l2 l3 : list Panel) :
  Forall2 panel_frame l1 l2 → Forall2 panel_frame l2 l3 → Forall2 panel_frame l1 l3.
Proof. intros H12 H23. etransitivity; eassumption. Qed.

Lemma dispose_frame_refl w : dispose_frame w w.
Proof. unfold dispose_frame. repeat split; auto using heap_frame_refl. Qed.

Lemma dispose_frame_trans w1 w2 w3 :
  dispose_frame w1 w2 → dispose_frame w2 w3 → dispose_frame w1 w3.
Proof.
  intros (Hh1 & Hs1 & Hp1 & Hr1 & Hc1) (Hh2 & Hs2 & Hp2 & Hr2 & Hc2).
  unfold dispose_frame.
  rewrite Hs2, Hs1, Hp2, Hp1, Hr2, Hr1, Hc2, Hc1.
  repeat split; eauto using heap_frame_trans.
Qed.

(** Changing one instance within [panel_frame] is within the frame. *)
Lemma heap_frame_alter (f : Panel → Panel) h (l : list Panel) :
  (∀ o, panel_frame o (f o)) → Forall2 panel_frame l (alter f h l).
Proof.
  intros Hf. apply Forall2_alter_r; [apply heap_frame_refl |].
  intros o o' _ _ Hoo'. etransitivity; [exact Hoo' | apply Hf].
Qed.

Lemma heap_frame_insert h o o' (l : list Panel) :
  l !! h = Some o → panel_frame o o' → Forall2 panel_frame l (<[h := o']> l).
Proof.
  intros Hl Hf. rewrite <- (list_insert_id l h o Hl) at 1.
  apply Forall2_insert; [apply heap_frame_refl | exact Hf].
Qed.

Lemma set_currentPanel_frame c w : dispose_frame w (set_currentPanel c w).
Proof. unfold dispose_frame; simpl. repeat split; auto using heap_frame_refl. Qed.

Lemma set_currentPanel_same w :
  set_currentPanel (currentPanel w) w = w.
Proof. destruct w; reflexivity. Qed.

(** *** Disposing a subscription *)

Lemma Disposable_dispose_frame d w : dispose_frame w (Disposable_dispose d w).
Proof.
  unfold dispose_frame; simpl. repeat split; try reflexivity.
  destruct d; apply heap_frame_alter; intros o; unfold panel_frame; simpl; auto.
Qed.

Lemma Disposable_dispose_lookup d w h o :
  heap w !! h = Some o →
  ∃ o', heap (Disposable_dispose d w) !! h = Some o' ∧
        _disposables o' = _disposables o ∧
        disposed (_panel o') = disposed (_panel o).
Proof.
  intros Hl. destruct d as [k | k]; simpl;
    rewrite list_lookup_alter; case_decide; subst; rewrite Hl; simpl;
    (eexists; split; [reflexivity | split; reflexivity]).
Qed.

(** *** The loop of [dispose] *)

Lemma snoc_or_nil {A} (l : list A) : l = [] ∨ ∃ l' x, l = l' ++ [x].
Proof. destruct l as [| x l] using rev_ind; eauto. Qed.

(** With more fuel than there are disposables, the loop ends with an empty
    list; it disposes the subscriptions from the last pushed to the first
    and touches nothing beyond the frame. *)
Lemma dispose_loop_spec fuel this w o :
  heap w !! this = Some o →
  length (_disposables o) < fuel →
  ∃ w' o',
    dispose_loop fuel this w = Some w' ∧
    currentPanel w' = currentPanel w ∧
    dispose_frame w w' ∧
    disposed_subscriptions w' =
      disposed_subscriptions w ++ reverse (_disposables o) ∧
    heap w' !! this = Some o' ∧
    _disposables o' = [] ∧
    disposed (_panel o') = disposed (_panel o).
Proof.
  revert w o. induction fuel as [| fuel IH]; intros w o Hl Hlen; [lia |].
  simpl. rewrite Hl. simpl.
  destruct (snoc_or_nil (_disposables o)) as [Hds | (ds & d & Hds)];
    rewrite Hds in *.
  - simpl. exists w, o. rewrite app_nil_r.
    repeat split; auto using heap_frame_refl.
  - rewrite length_app in *. simpl in Hlen.
    replace (length ds + length [d]) with (S (length ds)) by (simpl; lia).
    simpl. rewrite last_snoc, removelast_last.
    set (w1 := set_heap (<[this := with_disposables ds o]> (heap w)) w).
    assert (Hl1 : heap w1 !! this = Some (with_disposables ds o)).
    { simpl. apply list_lookup_insert_eq. eapply lookup_lt_Some, Hl. }
    destruct (Disposable_dispose_lookup d w1 this _ Hl1)
      as (o2 & Hl2 & Hds2 & Hdisp2).
    destruct (IH (Disposable_dispose d w1) o2 Hl2) as
      (w' & o' & Hrun & Hcur & Hframe & Hlog & Hl' & Hds' & Hdisp').
    { rewrite Hds2. simpl. lia. }
    exists w', o'. split; [exact Hrun |].
    split; [rewrite Hcur; reflexivity |].
    split.
    { eapply dispose_frame_trans; [| exact Hframe].
      eapply dispose_frame_trans; [| apply Disposable_dispose_frame].
      unfold dispose_frame; simpl. repeat split.
      eapply heap_frame_insert; [exact Hl |]. unfold panel_frame; simpl; auto. }
    split.
    { rewrite Hlog, Hds2. simpl. rewrite reverse_snoc, <- app_assoc.
      reflexivity. }
    split; [exact Hl' |]. split; [exact Hds' |].
    rewrite Hdisp', Hdisp2. reflexivity.
Qed.

(** More fuel does not change what the loop returns. *)
Lemma dispose_loop_fuel fuel this w w' :
  dispose_loop fuel this w = Some w' → dispose_loop (S fuel) this w = Some w'.
Proof.
  revert w. induction fuel as [| fuel IH]; intros w; [discriminate |].
  intros Hrun. simpl in Hrun. change (dispose_loop (S (S fuel)) this w) with
    (o ← heap w !! this;
     if length (_disposables o) =? 0 then Some w
     else
       let '(disposable, rest) := pop (_disposables o) in
       let w := set_heap (<[this := with_disposables rest o]> (heap w)) w in
       let w :=
         match disposable with
         | Some d => Disposable_dispose d w
         | None => w
         end in
       dispose_loop (S fuel) this w).
  destruct (heap w !! this) as [o |]; [| discriminate]. simpl in *.
  destruct (Nat.eqb (length (_disposables o)) 0); [exact Hrun |].
  destruct (pop (_disposables o)) as [disposable rest].
  apply IH, Hrun.
Qed.

(** *** [dispose] and the host's [panel.dispose()] *)

Lemma dispose_rec_S fuel this w :
  dispose_rec (S fuel) this w =
  (w1 ← WebviewPanel_dispose (dispose_rec fuel this) this (set_currentPanel None w);
   o ← heap w1 !! this;
   dispose_loop (S (length (_disposables o))) this w1).
Proof. reflexivity. Qed.

Lemma WebviewPanel_dispose_disposed call h w o :
  heap w !! h = Some o → disposed (_panel o) = true →
  WebviewPanel_dispose call h w = Some w.
Proof. intros Hl Hd. unfold WebviewPanel_dispose. by rewrite Hl; simpl; rewrite Hd. Qed.

Lemma WebviewPanel_dispose_live call h w o :
  heap w !! h = Some o → disposed (_panel o) = false →
  WebviewPanel_dispose call h w =
  let w1 := set_heap (alter (with_panel (set_disposed true)) h (heap w)) w in
  if onDidDispose (_panel o) then call w1 else Some w1.
Proof. intros Hl Hd. unfold WebviewPanel_dispose. by rewrite Hl; simpl; rewrite Hd. Qed.

Lemma WebviewPanel_dispose_None call h w :
  heap w !! h = None → WebviewPanel_dispose call h w = None.
Proof. intros Hl. unfold WebviewPanel_dispose. by rewrite Hl. Qed.

(** Marking the panel of [h] as disposed. *)
Lemma mark_frame h w :
  dispose_frame w (set_heap (alter (with_panel (set_disposed true)) h (heap w)) w).
Proof.
  unfold dispose_frame; simpl. repeat split.
  apply heap_frame_alter. intros o. unfold panel_frame; simpl; auto.
Qed.

Lemma mark_lookup h w o :
  heap w !! h = Some o →
  alter (with_panel (set_disposed true)) h (heap w) !! h =
    Some (with_panel (set_disposed true) o).
Proof. intros Hl. by rewrite list_lookup_alter_eq, Hl. Qed.

(** [dispose] on an instance whose panel the host has disposed already. *)
Lemma dispose_rec_disposed fuel this w o :
  heap w !! this = Some o → disposed (_panel o) = true →
  ∃ w', dispose_rec (S fuel) this w = Some w' ∧ disposed_of this o w w'.
Proof.
  intros Hl Hd. rewrite dispose_rec_S.
  rewrite (WebviewPanel_dispose_disposed _ this _ o); [| exact Hl | exact Hd].
  change (Some (set_currentPanel None w) ≫= _) with
    (o ← heap w !! this;
     dispose_loop (S (length (_disposables o))) this (set_currentPanel None w)).
  rewrite Hl.
  destruct (dispose_loop_spec (S (length (_disposables o))) this
              (set_currentPanel None w) o Hl) as
    (w' & o' & Hrun & Hcur & Hframe & Hlog & Hl' & Hds' & Hdisp'); [lia |].
  exists w'. split; [exact Hrun |]. unfold disposed_of.
  split; [exact Hcur |].
  split; [eapply dispose_frame_trans; [apply set_currentPanel_frame | exact Hframe] |].
  split; [exact Hlog |].
  exists o'. rewrite Hdisp'. auto.
Qed.

(** [dispose] on any instance that exists: it returns, and the instance is
    disposed of. *)
Lemma dispose_rec_spec fuel this w o :
  heap w !! this = Some o →
  ∃ w', dispose_rec (S (S fuel)) this w = Some w' ∧ disposed_of this o w w'.
Proof.
  intros Hl. destruct (disposed (_panel o)) eqn:Hd.
  { eapply dispose_rec_disposed; eassumption. }
  rewrite dispose_rec_S.
  rewrite (WebviewPanel_dispose_live _ this _ o); [| exact Hl | exact Hd].
  cbn zeta.
  set (w0 := set_currentPanel None w).
  set (w1 := set_heap (alter (with_panel (set_disposed true)) this (heap w0)) w0).
  assert (Hl1 : heap w1 !! this = Some (with_panel (set_disposed true) o)).
  { apply (mark_lookup this w0 o Hl). }
  assert (Hf1 : dispose_frame w w1).
  { eapply dispose_frame_trans; [apply set_currentPanel_frame | apply mark_frame]. }
  destruct (onDidDispose (_panel o)).
  - (* the event fires and the listener runs [dispose] again *)
    destruct (dispose_rec_disposed fuel this w1 _ Hl1 eq_refl)
      as (w2 & Hrun & Hcur & Hframe & Hlog & o2 & Hl2 & Hds2 & Hdisp2).
    rewrite Hrun.
    change (Some w2 ≫= _) with
      (o ← heap w2 !! this; dispose_loop (S (length (_disposables o))) this w2).
    rewrite Hl2. simpl. rewrite Hl2. simpl. rewrite Hds2. simpl.
    exists w2. split; [reflexivity |]. unfold disposed_of.
    split; [exact Hcur |].
    split; [eapply dispose_frame_trans; eassumption |].
    split; [exact Hlog |]. eauto.
  - (* nobody listens: the loop of this call does the work *)
    change (Some w1 ≫= _) with
      (o ← heap w1 !! this; dispose_loop (S (length (_disposables o))) this w1).
    rewrite Hl1.
    destruct (dispose_loop_spec
                (S (length (_disposables (with_panel (set_disposed true) o))))
                this w1 _ Hl1) as
      (w' & o' & Hrun & Hcur & Hframe & Hlog & Hl' & Hds' & Hdisp'); [lia |].
    exists w'. split; [exact Hrun |]. unfold disposed_of.
    split; [exact Hcur |].
    split; [eapply dispose_frame_trans; eassumption |].
    split; [exact Hlog |].
    exists o'. rewrite Hdisp'. auto.
Qed.

Lemma dispose_spec this w o :
  heap w !! this = Some o →
  ∃ w', dispose this w = Some w' ∧ disposed_of this o w w'.
Proof. apply (dispose_rec_spec 0). Qed.

(** The depth [dispose] is run with is enough: any greater depth gives the
    same result. *)
Lemma dispose_rec_fuel fuel this w :
  dispose_rec (S (S fuel)) this w = dispose this w.
Proof.
  unfold dispose. rewrite !(dispose_rec_S (S _)).
  set (w0 := set_currentPanel None w).
  destruct (heap w0 !! this) as [o |] eqn:Hl.
  - destruct (disposed (_panel o)) eqn:Hd.
    + by rewrite !(WebviewPanel_dispose_disposed _ this w0 o).
    + rewrite !(WebviewPanel_dispose_live _ this w0 o) by assumption.
      cbn zeta. destruct (onDidDispose (_panel o)); [| reflexivity].
      set (w1 := set_heap _ w0).
      assert (Hl1 : heap w1 !! this = Some (with_panel (set_disposed true) o)).
      { apply (mark_lookup this w0 o Hl). }
      rewrite !dispose_rec_S.
      by rewrite !(WebviewPanel_dispose_disposed _ this (set_currentPanel None w1) _ Hl1).
  - by rewrite !WebviewPanel_dispose_None.
Qed.

(** The host disposes the panel of [h], when the user closes it or when
    [render] asks for it: the panel is disposed afterwards, and when the
    listener of the instance was attached the instance is disposed of. *)
Lemma close_spec h w o :
  heap w !! h = Some o →
  ∃ w', WebviewPanel_dispose (dispose h) h w = Some w' ∧
        dispose_frame w w' ∧
        (∃ o', heap w' !! h = Some o' ∧ disposed (_panel o') = true) ∧
        (currentPanel w' = currentPanel w ∨ currentPanel w' = None) ∧
        (disposed (_panel o) = false → onDidDispose (_panel o) = true →
         disposed_of h o w w').
Proof.
  intros Hl. destruct (disposed (_panel o)) eqn:Hd.
  { rewrite (WebviewPanel_dispose_disposed _ h w o Hl Hd).
    exists w. split; [reflexivity |]. split; [apply dispose_frame_refl |].
    split; [eauto |]. split; [left; reflexivity |]. discriminate. }
  rewrite (WebviewPanel_dispose_live _ h w o Hl Hd). cbn zeta.
  set (w1 := set_heap _ w).
  assert (Hl1 : heap w1 !! h = Some (with_panel (set_disposed true) o)).
  { apply (mark_lookup h w o Hl). }
  pose proof (mark_frame h w) as Hf1. fold w1 in Hf1.
  destruct (onDidDispose (_panel o)).
  - destruct (dispose_spec h w1 _ Hl1)
      as (w2 & Hrun & Hcur & Hframe & Hlog & o2 & Hl2 & Hds2 & Hdisp2).
    exists w2. split; [exact Hrun |].
    assert (Hf2 : dispose_frame w w2) by (eapply dispose_frame_trans; eassumption).
    split; [exact Hf2 |]. split; [eauto |]. split; [auto |].
    intros _ _. unfold disposed_of. eauto 10.
  - exists w1. split; [reflexivity |]. split; [exact Hf1 |].
    split; [eauto |]. split; [left; reflexivity |]. discriminate.
Qed.

(** *** The constructor *)

Lemma alter_snoc {A} (f : A → A) (l : list A) x :
  alter f (length l) (l ++ [x]) = l ++ [f x].
Proof. rewrite alter_app_r_alt by lia. by rewrite Nat.sub_diag. Qed.

Lemma lookup_snoc_last {A} (l : list A) x : (l ++ [x]) !! length l = Some x.
Proof. by apply list_lookup_middle. Qed.

(** The constructor returns; the new instance sits at the end of the heap
    with both listeners attached and their two subscriptions as its
    disposables, and one message went to its webview. *)
Lemma constructor_spec panel context store w :
  constructor panel context store w =
  Some (length (heap w),
        postMessage (length (heap w))
          (msg_reloadWebview messagesToWebview (getState (stores w store)))
          (set_heap
             (heap w ++
              [{| _panel :=
                    set_onDidReceiveMessage true
                      (set_html
                         (_getWebviewContent (length (heap w)) (extensionUri context))
                         (set_onDidDispose true panel));
                  _disposables :=
                    [onDidDispose_subscription (length (heap w));
                     onDidReceiveMessage_subscription (length (heap w))];
                  _store := store |}]) w)).
Proof.
  unfold constructor, _setWebviewMessageListener, reloadWebview.
  cbn [heap set_heap]. rewrite !alter_snoc.
  cbn [heap set_heap]. rewrite lookup_snoc_last. reflexivity.
Qed.

(** *** [render], branch by branch *)

Lemma render_create context store w :
  currentPanel w = None →
  render context store w =
  Some (set_currentPanel (Some (length (heap w)))
          (postMessage (length (heap w))
             (msg_reloadWebview messagesToWebview (getState (stores w store)))
             (set_heap
                (heap w ++
                 [{| _panel :=
                       set_onDidReceiveMessage true
                         (set_html
                            (_getWebviewContent (length (heap w)) (extensionUri context))
                            (set_onDidDispose true
                               (createWebviewPanel "showVscodeTodoWebview" "Todo"
                                  ViewColumn.Beside
                                  {| enableScripts := true;
                                     localResourceRoots :=
                                       [Uri_joinPath (extensionUri context) "out";
                                        Uri_joinPath (extensionUri context)
                                          "webview-ui/build"];
                                     retainContextWhenHidden := true;
                                     enableFindWidget := true |})));
                     _disposables :=
                       [onDidDispose_subscription (length (heap w));
                        onDidReceiveMessage_subscription (length (heap w))];
                     _store := store |}]) w))).
Proof.
  intros Hc. unfold render. rewrite Hc. cbn zeta.
  rewrite constructor_spec. reflexivity.
Qed.

Lemma render_reveal context store w current o :
  currentPanel w = Some current → heap w !! current = Some o →
  active (_panel o) = false →
  render context store w = Some (reveal current ViewColumn.Beside w).
Proof. intros Hc Hl Ha. unfold render. by rewrite Hc, Hl; simpl; rewrite Ha. Qed.

Lemma render_dispose context store w current o :
  currentPanel w = Some current → heap w !! current = Some o →
  active (_panel o) = true →
  render context store w = WebviewPanel_dispose (dispose current) current w.
Proof. intros Hc Hl Ha. unfold render. by rewrite Hc, Hl; simpl; rewrite Ha. Qed.

(** *** The singleton invariant *)

Lemma filter_at_most_one {A} (P : A → Prop) `{!∀ x, Decision (P x)} (l : list A) :
  (∀ i j x y, l !! i = Some x → l !! j = Some y → P x → P y → i = j) →
  length (filter P l) ≤ 1.
Proof.
  induction l as [| a l IH]; intros Huniq; [simpl; lia |].
  rewrite filter_cons. destruct (decide (P a)) as [Ha | Ha].
  - assert (Hnil : filter P l = []).
    { apply elem_of_nil_inv. intros x Hx.
      apply list_elem_of_filter in Hx as [HPx Hin].
      apply list_elem_of_lookup_1 in Hin as [i Hi].
      specialize (Huniq 0 (S i) a x eq_refl Hi Ha HPx). discriminate. }
    rewrite Hnil. simpl. lia.
  - apply IH. intros i j x y Hi Hj Hx Hy.
    specialize (Huniq (S i) (S j) x y Hi Hj Hx Hy). lia.
Qed.

Lemma singleton_init (s : StoreRef → Store Action RootState) :
  singleton (init s : World).
Proof. split; simpl; [intros h o Hl | intros h Hc]; discriminate. Qed.

Lemma singleton_live_count w : singleton w → live_count w ≤ 1.
Proof.
  intros [Hlive _]. unfold live_count. apply filter_at_most_one.
  intros i j x y Hi Hj Hx Hy.
  pose proof (Hlive i x Hi Hx) as Hci. pose proof (Hlive j y Hj Hy) as Hcj.
  congruence.
Qed.

(** Within the frame of disposing no panel comes back to life; when the
    current panel of [w] is disposed in [w'], nothing is live in [w']. *)
Lemma nothing_live w w' h o' :
  singleton w → dispose_frame w w' →
  (∀ c, currentPanel w = Some c →
        ∃ oc, heap w' !! c = Some oc ∧ disposed (_panel oc) = true) →
  heap w' !! h = Some o' → live o' → False.
Proof.
  intros [Hlive _] (HF & _) Hcur Hl' Hlive'.
  destruct (Forall2_lookup_r _ _ _ _ _ HF Hl') as (o & Hl & (_ & _ & Hmono)).
  assert (Ho : live o).
  { unfold live in *. destruct (disposed (_panel o)); [| reflexivity].
    rewrite Hmono in Hlive' by reflexivity. discriminate. }
  destruct (Hcur h (Hlive h o Hl Ho)) as (oc & Hlc & Hdc).
  unfold live in Hlive'. congruence.
Qed.

Lemma dispose_frame_length w w' :
  dispose_frame w w' → length (heap w') = length (heap w).
Proof. intros (HF & _). symmetry. eapply Forall2_length, HF. Qed.

Lemma close_singleton h w o :
  singleton w → heap w !! h = Some o →
  ∃ w', WebviewPanel_dispose (dispose h) h w = Some w' ∧
        singleton w' ∧
        length (heap w') = length (heap w) ∧
        (currentPanel w' = currentPanel w ∨ currentPanel w' = None).
Proof.
  intros Hinv Hl. destruct (disposed (_panel o)) eqn:Hd.
  { rewrite (WebviewPanel_dispose_disposed _ h w o Hl Hd).
    exists w. repeat split; auto; apply Hinv. }
  destruct (close_spec h w o Hl) as (w' & Hrun & Hframe & (o' & Hl' & Hd') & Hcur & _).
  exists w'. split; [exact Hrun |].
  split; [| split; [by apply dispose_frame_length | exact Hcur]].
  split.
  - intros h2 o2 Hl2 Hlive2. exfalso.
    eapply (nothing_live w w' h2 o2); eauto.
    intros c Hc. destruct Hinv as [Hlive _].
    rewrite (Hlive h o Hl Hd) in Hc. injection Hc as <-. eauto.
  - intros c Hc. rewrite (dispose_frame_length w w' Hframe).
    destruct Hinv as [_ Hvalid]. destruct Hcur as [Hcur | Hcur];
      rewrite Hcur in Hc; [by apply Hvalid | discriminate].
Qed.

Lemma dispose_singleton this w :
  singleton w → this < length (heap w) →
  (∀ h, currentPanel w = Some h → h = this) →
  ∃ w', dispose this w = Some w' ∧ singleton w'.
Proof.
  intros Hinv Hlt Hcur.
  destruct (lookup_lt_is_Some_2 _ _ Hlt) as [o Hl].
  destruct (dispose_spec this w o Hl) as
    (w' & Hrun & Hnone & Hframe & _ & o' & Hl' & _ & Hd').
  exists w'. split; [exact Hrun |]. split.
  - intros h2 o2 Hl2 Hlive2. exfalso.
    eapply (nothing_live w w' h2 o2); eauto.
    intros c Hc. rewrite (Hcur c Hc). eauto.
  - intros c Hc. rewrite Hnone in Hc. discriminate.
Qed.

Lemma render_singleton context store w :
  singleton w →
  ∃ w', render context store w = Some w' ∧
        singleton w' ∧
        length (heap w') =
          match currentPanel w with
          | Some _ => length (heap w)
          | None => S (length (heap w))
          end ∧
        (currentPanel w = None → currentPanel w' = Some (length (heap w))) ∧
        (is_Some (currentPanel w) →
         currentPanel w' = currentPanel w ∨ currentPanel w' = None).
Proof.
  intros Hinv. destruct (currentPanel w) as [current |] eqn:Hc.
  - destruct Hinv as [Hlive Hvalid].
    destruct (lookup_lt_is_Some_2 _ _ (Hvalid current Hc)) as [o Hl].
    destruct (active (_panel o)) eqn:Ha.
    + rewrite (render_dispose _ _ _ current o Hc Hl Ha).
      destruct (close_singleton current w o (conj Hlive Hvalid) Hl)
        as (w' & Hrun & Hinv' & Hlen & Hcur).
      exists w'. rewrite <- Hc. split; [exact Hrun |]. split; [exact Hinv' |].
      split; [exact Hlen |]. split; [congruence | auto].
    + rewrite (render_reveal _ _ _ current o Hc Hl Ha).
      eexists. split; [reflexivity |]. simpl.
      split; [split; assumption |]. split; [reflexivity |].
      split; [discriminate | auto].
  - rewrite (render_create _ _ _ Hc). eexists. split; [reflexivity |].
    cbn [currentPanel heap set_currentPanel postMessage set_heap].
    split; [| split; [rewrite length_app; simpl; lia | split; [reflexivity |]]].
    + split.
      * intros h o Hl Hlive. apply lookup_snoc_Some in Hl as [[_ Hl] | [-> _]].
        -- destruct Hinv as [Hl0 _]. rewrite (Hl0 h o Hl Hlive) in Hc. discriminate.
        -- reflexivity.
      * intros h [= <-]. simpl. rewrite length_app. simpl. lia.
    + intros [c Hcc]. discriminate.
Qed.

(** *** The message listener *)

Lemma store_dispatch_dispatches r a w :
  dispatches reducer r [a] w (store_dispatch reducer r a w).
Proof.
  unfold dispatches, store_dispatch, dispatch; simpl.
  rewrite fn_lookup_insert; simpl. repeat split; try reflexivity.
  intros r' Hr'. by rewrite fn_lookup_insert_ne.
Qed.

(** C1. For a message whose scope is user or workspace and whose type is
    one of addTodo, deleteTodo, toggleTodo, editTodo and reorderTodo, the
    listener dispatches exactly one action to the store of its panel: the
    action creator of the same name, taken from the action set selected by
    the scope, applied to the payload of the message. *)
Theorem messageListener_dispatches this o w message storeActions :
  heap w !! this = Some o →
  scope message = TodoScope.user ∧ storeActions = userActions ∨
  scope message = TodoScope.workspace ∧ storeActions = workspaceActions →
  known_type (type message) = true →
  ∃ creator w',
    listener this message w = Some w' ∧
    w' = store_dispatch reducer (_store o) (creator (payload message)) w ∧
    dispatches reducer (_store o) [creator (payload message)] w w' ∧
    (type message = MessageActionsFromWebview.addTodo →
     creator = addTodo storeActions) ∧
    (type message = MessageActionsFromWebview.deleteTodo →
     creator = deleteTodo storeActions) ∧
    (type message = MessageActionsFromWebview.toggleTodo →
     creator = toggleTodo storeActions) ∧
    (type message = MessageActionsFromWebview.editTodo →
     creator = editTodo storeActions) ∧
    (type message = MessageActionsFromWebview.reorderTodo →
     creator = reorderTodo storeActions).
Proof.
  intros Hl Hscope Hknown. unfold messageListener.
  assert (Hsel :
    match scope message with
    | TodoScope.user => Some userActions
    | TodoScope.workspace => Some workspaceActions
    | TodoScope.other _ => None
    end = Some storeActions).
  { destruct Hscope as [[-> ->] | [-> ->]]; reflexivity. }
  cbn zeta. rewrite Hsel, Hl. simpl.
  destruct (type message) eqn:Hty; try discriminate Hknown;
    eexists _, _; (split; [reflexivity |]); (split; [reflexivity |]);
    (split; [apply store_dispatch_dispatches |]);
    repeat split; intros Heq; first [reflexivity | discriminate Heq].
Qed.

(** C3. For an unrecognized message (its scope is neither user nor
    workspace, or its type is none of the five known tags) the listener
    writes one line on the error console and does nothing else: no action
    reaches a store and the state of every store is as before. *)
Theorem unrecognized_only_logs this w message :
  recognized message = false →
  ∃ line w',
    listener this message w = Some w' ∧
    w' = console_error line w ∧
    line = (if known_scope (scope message) then "Action not found"
            else "Action scope not found") ∧
    console w' = console w ++ [line] ∧
    stores w' = stores w ∧
    currentPanel w' = currentPanel w ∧
    heap w' = heap w ∧
    posted w' = posted w ∧
    revealed w' = revealed w ∧
    disposed_subscriptions w' = disposed_subscriptions w.
Proof.
  unfold recognized, messageListener. intros Hun.
  destruct (scope message) eqn:Hsc; simpl in *.
  1, 2: destruct (type message) eqn:Hty; try discriminate Hun.
  all: eexists _, _; repeat split; reflexivity.
Qed.

(** C10. The listener is deterministic, and what it dispatches is a
    function of the message alone: for every message there is a list of at
    most one action such that every run of the listener on that message, on
    any panel in any world, dispatches exactly that list to the store of the
    panel; two runs that start from the same store state end in the same
    store state. *)
Theorem messageListener_deterministic message :
  ∃ acts : list Action,
    length acts ≤ 1 ∧
    ∀ this w o,
      heap w !! this = Some o →
      ∃ w',
        listener this message w = Some w' ∧
        dispatched (stores w' (_store o)) =
          dispatched (stores w (_store o)) ++ acts ∧
        getState (stores w' (_store o)) =
          foldl reducer (getState (stores w (_store o))) acts.
Proof.
  unfold messageListener.
  destruct (scope message) eqn:Hsc; destruct (type message) eqn:Hty; cbn zeta.
  all: first
    [ eexists [_]; split; [simpl; lia |];
      intros this w o Hl; rewrite Hl; simpl;
      eexists; split; [reflexivity |];
      unfold store_dispatch; cbn [stores set_stores];
      rewrite !fn_lookup_insert; split; reflexivity
    | exists []; split; [simpl; lia |];
      intros this w o Hl; eexists; split; [reflexivity |];
      simpl; rewrite app_nil_r; split; reflexivity ].
Qed.

(** *** The panel *)

Lemma updateWebview_Some this newSliceState w w' :
  updateWebview messagesToWebview this newSliceState w = Some w' →
  this < length (heap w) ∧
  w' = postMessage this (msg_syncData messagesToWebview newSliceState) w.
Proof.
  unfold updateWebview, webview.
  destruct (heap w !! this) as [o |] eqn:Hl; [| discriminate]. simpl.
  destruct (disposed (_panel o)); [discriminate |]. simpl. intros [= <-].
  split; [eapply lookup_lt_Some, Hl | reflexivity].
Qed.

(** C6, as the code has it.  For every slice state passed to
    [updateWebview] on an instance whose webview panel is not disposed, the
    panel posts exactly one message to its webview, the [syncData] message
    made from that slice state as it was passed, and nothing else happens.
    On an instance whose panel is disposed the call raises and nothing is
    posted. *)
Theorem updateWebview_posts this o newSliceState w :
  heap w !! this = Some o →
  (disposed (_panel o) = false →
   ∃ w', updateWebview messagesToWebview this newSliceState w = Some w' ∧
         posts [(this, msg_syncData messagesToWebview newSliceState)] w w') ∧
  (disposed (_panel o) = true →
   updateWebview messagesToWebview this newSliceState w = None).
Proof.
  intros Hl. unfold updateWebview, webview. rewrite Hl. simpl.
  split; intros Hd; rewrite Hd; simpl; [| reflexivity].
  eexists. split; [reflexivity |]. unfold posts. simpl.
  repeat split; reflexivity.
Qed.

(** C7. After [dispose] returns no panel is current, the webview panel of
    the instance is disposed, and its list of disposables is empty, every
    disposable that was in it having been disposed (each once, the last
    pushed first). *)
Theorem dispose_disposes this w o :
  heap w !! this = Some o →
  ∃ w' o',
    dispose this w = Some w' ∧
    currentPanel w' = None ∧
    heap w' !! this = Some o' ∧
    disposed (_panel o') = true ∧
    _disposables o' = [] ∧
    (∀ d, d ∈ _disposables o → d ∈ disposed_subscriptions w') ∧
    disposed_subscriptions w' =
      disposed_subscriptions w ++ reverse (_disposables o).
Proof.
  intros Hl.
  destruct (dispose_spec this w o Hl) as
    (w' & Hrun & Hnone & _ & Hlog & o' & Hl' & Hds' & Hd').
  exists w', o'. repeat split; try assumption.
  intros d Hd. rewrite Hlog. apply elem_of_app. right.
  by apply elem_of_reverse.
Qed.

(** C8. [dispose] is idempotent: on every instance, in every world, a
    second call right after the first leaves the world the first call
    left, in which no panel is current and the list of disposables of the
    instance is empty. *)
Theorem dispose_idempotent this w o :
  heap w !! this = Some o →
  ∃ w' o',
    dispose this w = Some w' ∧
    dispose this w' = Some w' ∧
    currentPanel w' = None ∧
    heap w' !! this = Some o' ∧
    _disposables o' = [].
Proof.
  intros Hl.
  destruct (dispose_spec this w o Hl) as
    (w' & Hrun & Hnone & _ & _ & o' & Hl' & Hds' & Hd').
  exists w', o'. repeat split; try assumption.
  unfold dispose. rewrite dispose_rec_S.
  rewrite <- Hnone, set_currentPanel_same.
  rewrite (WebviewPanel_dispose_disposed _ this w' o' Hl' Hd').
  simpl. rewrite Hl'. simpl. by rewrite Hds'.
Qed.

(** C9. Whenever a new panel is created, the constructor posts exactly one
    message to its webview: the [reloadWebview] message made from the whole
    state of the store at that time, [store.getState()]. *)
Theorem new_panel_reloads context store w :
  (∀ panel,
     ∃ w', constructor panel context store w = Some (length (heap w), w') ∧
           posted w' =
             posted w ++
             [(length (heap w),
               msg_reloadWebview messagesToWebview (getState (stores w store)))] ∧
           stores w' = stores w) ∧
  (currentPanel w = None →
     ∃ w', render context store w = Some w' ∧
           posted w' =
             posted w ++
             [(length (heap w),
               msg_reloadWebview messagesToWebview (getState (stores w store)))] ∧
           stores w' = stores w).
Proof.
  split.
  - intros panel. rewrite constructor_spec. eexists. split; [reflexivity |].
    split; reflexivity.
  - intros Hc. rewrite (render_create _ _ _ Hc). eexists.
    split; [reflexivity |]. split; reflexivity.
Qed.

(** C5. [render] takes exactly one of three branches.  When a panel is
    current and has the focus, that panel is disposed: nothing is revealed
    and no panel is made.  When a panel is current and does not have the
    focus, it is revealed in the Beside column and nothing else happens.
    When no panel is current, one new webview panel is made and becomes
    the current panel; no panel that existed is touched. *)
Theorem render_branches context store w :
  (∀ h, currentPanel w = Some h → h < length (heap w)) →
  ∃ w',
    render context store w = Some w' ∧
    (∀ current o,
       currentPanel w = Some current → heap w !! current = Some o →
       active (_panel o) = true →
       (∃ o', heap w' !! current = Some o' ∧ disposed (_panel o') = true) ∧
       revealed w' = revealed w ∧
       posted w' = posted w ∧
       length (heap w') = length (heap w)) ∧
    (∀ current o,
       currentPanel w = Some current → heap w !! current = Some o →
       active (_panel o) = false →
       w' = reveal current ViewColumn.Beside w) ∧
    (currentPanel w = None →
       ∃ o', heap w' = heap w ++ [o'] ∧
             live o' ∧
             currentPanel w' = Some (length (heap w)) ∧
             revealed w' = revealed w ∧
             disposed_subscriptions w' = disposed_subscriptions w).
Proof.
  intros Hvalid. destruct (currentPanel w) as [current |] eqn:Hc.
  - destruct (lookup_lt_is_Some_2 _ _ (Hvalid current eq_refl)) as [o Hl].
    destruct (active (_panel o)) eqn:Ha.
    + rewrite (render_dispose _ _ _ current o Hc Hl Ha).
      destruct (close_spec current w o Hl) as
        (w' & Hrun & Hframe & Hdisp & _ & _).
      exists w'. split; [exact Hrun |]. split; [| split].
      * intros c o0 [= <-] Hl0 _.
        pose proof (dispose_frame_length _ _ Hframe) as Hlen.
        destruct Hframe as (_ & _ & Hp & Hr & _). auto.
      * intros c o0 [= <-] Hl0 Ha0. congruence.
      * discriminate.
    + rewrite (render_reveal _ _ _ current o Hc Hl Ha).
      eexists. split; [reflexivity |]. split; [| split].
      * intros c o0 [= <-] Hl0 Ha0. congruence.
      * intros c o0 [= <-] _ _. reflexivity.
      * discriminate.
  - rewrite (render_create _ _ _ Hc).
    eexists. split; [reflexivity |]. split; [| split].
    + discriminate.
    + discriminate.
    + intros _. eexists. split; [reflexivity |]. repeat split.
Qed.

Lemma dispose_Some_lookup this w w' :
  dispose this w = Some w' → this < length (heap w).
Proof.
  intros Hrun. apply lookup_lt_is_Some.
  destruct (heap w !! this) as [o |] eqn:Hl; [eauto |].
  unfold dispose in Hrun. rewrite dispose_rec_S in Hrun.
  rewrite WebviewPanel_dispose_None in Hrun by exact Hl. discriminate.
Qed.

Lemma close_Some_lookup call h w w' :
  WebviewPanel_dispose call h w = Some w' → h < length (heap w).
Proof.
  intros Hrun. apply lookup_lt_is_Some.
  destruct (heap w !! h) as [o |] eqn:Hl; [eauto |].
  rewrite WebviewPanel_dispose_None in Hrun by exact Hl. discriminate.
Qed.

Lemma reachable_on_current_singleton s w :
  reachable_on_current messagesToWebview extensionUri Uri_joinPath
    _getWebviewContent s w →
  singleton w.
Proof.
  induction 1 as [| context store w w' _ IH Hrun
                  | this w w' _ IH Hcur Hrun
                  | h w w' _ IH Hrun].
  - apply singleton_init.
  - destruct (render_singleton context store w IH) as (w2 & Hrun2 & Hinv & _).
    congruence.
  - destruct (dispose_singleton this w IH (dispose_Some_lookup _ _ _ Hrun) Hcur)
      as (w2 & Hrun2 & Hinv).
    congruence.
  - destruct (lookup_lt_is_Some_2 _ _ (close_Some_lookup _ _ _ _ Hrun)) as [o Hl].
    destruct (close_singleton h w o IH Hl) as (w2 & Hrun2 & Hinv & _).
    congruence.
Qed.

(** C4, as the code has it.  The singleton invariant (every live panel is
    the current panel) holds before anything has happened and bounds the
    number of live panels by one.  [render] keeps it: it makes a panel,
    which it then makes the current one, only when no panel is current.
    [dispose] keeps it when it is called on the current panel or while no
    panel is current, and so does the host when it disposes a panel.  So at
    most one panel is live at any time of a run made of these steps. *)
Theorem singleton_preserved :
  (∀ s : StoreRef → Store Action RootState, singleton (init s : World)) ∧
  (∀ w, singleton w → live_count w ≤ 1) ∧
  (∀ context store w,
     singleton w →
     ∃ w', render context store w = Some w' ∧
           singleton w' ∧
           length (heap w') =
             match currentPanel w with
             | Some _ => length (heap w)
             | None => S (length (heap w))
             end ∧
           (currentPanel w = None → currentPanel w' = Some (length (heap w))) ∧
           (is_Some (currentPanel w) →
            currentPanel w' = currentPanel w ∨ currentPanel w' = None)) ∧
  (∀ this w,
     singleton w → this < length (heap w) →
     (∀ h, currentPanel w = Some h → h = this) →
     ∃ w', dispose this w = Some w' ∧ singleton w') ∧
  (∀ h w,
     singleton w → h < length (heap w) →
     ∃ w', WebviewPanel_dispose (dispose h) h w = Some w' ∧ singleton w') ∧
  (∀ s w,
     reachable_on_current messagesToWebview extensionUri Uri_joinPath
       _getWebviewContent s w →
     live_count w ≤ 1).
Proof.
  split; [apply singleton_init |].
  split; [apply singleton_live_count |].
  split; [apply render_singleton |].
  split; [apply dispose_singleton |].
  split.
  - intros h w Hinv Hlt.
    destruct (lookup_lt_is_Some_2 _ _ Hlt) as [o Hl].
    destruct (close_singleton h w o Hinv Hl) as (w' & Hrun & Hinv' & _).
    eauto.
  - intros s w Hreach.
    eapply singleton_live_count, reachable_on_current_singleton, Hreach.
Qed.

(** *** Instances as built and as spent *)

Lemma alter_as_insert {A} (f : A → A) (l : list A) i x :
  l !! i = Some x → alter f i l = <[i := f x]> l.
Proof.
  intros Hl. rewrite list_insert_alter.
  apply list_alter_ext; [| reflexivity]. intros y Hy. congruence.
Qed.

Lemma alter_insert_eq {A} (f : A → A) (l : list A) i x :
  i < length l → alter f i (<[i := x]> l) = <[i := f x]> l.
Proof.
  intros Hlt. rewrite (alter_as_insert f _ i x) by by apply list_lookup_insert_eq.
  apply list_insert_insert_eq.
Qed.

Lemma dispose_loop_step fuel this w o d ds :
  heap w !! this = Some o → _disposables o = ds ++ [d] →
  dispose_loop (S fuel) this w =
  dispose_loop fuel this
    (Disposable_dispose d
       (set_heap (<[this := with_disposables ds o]> (heap w)) w)).
Proof.
  intros Hl Hds. cbn [dispose_loop]. rewrite Hl. cbn [mbind option_bind].
  rewrite Hds, length_app. cbn [length].
  replace (length ds + 1) with (S (length ds)) by lia. cbn [Nat.eqb].
  unfold pop. rewrite last_snoc, removelast_last. reflexivity.
Qed.

Lemma dispose_loop_done fuel this w o :
  heap w !! this = Some o → _disposables o = [] →
  dispose_loop (S fuel) this w = Some w.
Proof. intros Hl Hds. cbn [dispose_loop]. by rewrite Hl; simpl; rewrite Hds. Qed.

(** The loop on an instance that holds its own two subscriptions: both are
    disposed, the message subscription first, both listeners come off, and
    no other instance is touched. *)
Lemma dispose_loop_own this w o :
  heap w !! this = Some o →
  _disposables o =
    [onDidDispose_subscription this; onDidReceiveMessage_subscription this] →
  dispose_loop 3 this w =
  Some {| currentPanel := currentPanel w;
          heap :=
            <[this := with_disposables []
                        (with_panel (set_onDidDispose false)
                           (with_panel (set_onDidReceiveMessage false) o))]>
              (heap w);
          stores := stores w; posted := posted w; revealed := revealed w;
          disposed_subscriptions :=
            disposed_subscriptions w ++
            [onDidReceiveMessage_subscription this;
             onDidDispose_subscription this];
          console := console w |}.
Proof.
  intros Hl Hds. pose proof (lookup_lt_Some _ _ _ Hl) as Hlt.
  rewrite (dispose_loop_step 2 this w o
             (onDidReceiveMessage_subscription this)
             [onDidDispose_subscription this] Hl Hds).
  set (o1 := with_panel (set_onDidReceiveMessage false)
               (with_disposables [onDidDispose_subscription this] o)).
  set (w1 := Disposable_dispose _ _).
  assert (Hh1 : heap w1 = <[this := o1]> (heap w)).
  { unfold w1, Disposable_dispose. cbn [heap set_heap].
    by rewrite alter_insert_eq. }
  assert (Hl1 : heap w1 !! this = Some o1).
  { rewrite Hh1. by apply list_lookup_insert_eq. }
  rewrite (dispose_loop_step 1 this w1 o1 (onDidDispose_subscription this) []
             Hl1 eq_refl).
  set (o2 := with_panel (set_onDidDispose false) (with_disposables [] o1)).
  set (w2 := Disposable_dispose _ _).
  assert (Hh2 : heap w2 = <[this := o2]> (heap w)).
  { unfold w2, Disposable_dispose. cbn [heap set_heap].
    rewrite alter_insert_eq by (rewrite Hh1, length_insert; exact Hlt).
    rewrite Hh1. apply list_insert_insert_eq. }
  assert (Hl2 : heap w2 !! this = Some o2).
  { rewrite Hh2. by apply list_lookup_insert_eq. }
  rewrite (dispose_loop_done 0 this w2 o2 Hl2 eq_refl).
  f_equal. destruct w2 eqn:Hw2. cbn [heap] in Hh2. subst.
  unfold w2, w1, Disposable_dispose, set_heap in Hw2.
  cbn [currentPanel stores posted revealed disposed_subscriptions console heap]
    in Hw2.
  injection Hw2 as <- _ <- <- <- <- <-.
  rewrite <- app_assoc. reflexivity.
Qed.

(** [dispose] on an instance whose panel the host has just marked as
    disposed, with the listeners and subscriptions still in place. *)
Lemma dispose_rec_marked fuel this w o :
  heap w !! this = Some o →
  disposed (_panel o) = true →
  _disposables o =
    [onDidDispose_subscription this; onDidReceiveMessage_subscription this] →
  dispose_rec (S fuel) this w =
  Some {| currentPanel := None;
          heap :=
            <[this := with_disposables []
                        (with_panel (set_onDidDispose false)
                           (with_panel (set_onDidReceiveMessage false) o))]>
              (heap w);
          stores := stores w; posted := posted w; revealed := revealed w;
          disposed_subscriptions :=
            disposed_subscriptions w ++
            [onDidReceiveMessage_subscription this;
             onDidDispose_subscription this];
          console := console w |}.
Proof.
  intros Hl Hd Hds. rewrite dispose_rec_S.
  rewrite (WebviewPanel_dispose_disposed _ this _ o); [| exact Hl | exact Hd].
  change (Some (set_currentPanel None w) ≫= _) with
    (o ← heap w !! this;
     dispose_loop (S (length (_disposables o))) this (set_currentPanel None w)).
  rewrite Hl. cbn [mbind option_bind]. rewrite Hds. cbn [length].
  apply (dispose_loop_own this (set_currentPanel None w) o Hl Hds).
Qed.

Lemma insert_mark this (l : list Panel) o x :
  l !! this = Some o →
  <[this := x]> (alter (with_panel (set_disposed true)) this l) = <[this := x]> l.
Proof.
  intros Hl. rewrite (alter_as_insert _ _ _ _ Hl). apply list_insert_insert_eq.
Qed.

(** [dispose] on an instance as the constructor built it: no panel is
    current afterwards, the instance is spent (panel disposed, both listeners
    detached, no disposable left), its two subscriptions were disposed, the
    one of the message listener first, and every other instance, the stores,
    the webviews and the console are as they were. *)
Lemma dispose_built_eq this w o :
  heap w !! this = Some o →
  built this o →
  dispose this w =
  Some {| currentPanel := None;
          heap := <[this := dispose_instance o]> (heap w);
          stores := stores w; posted := posted w; revealed := revealed w;
          disposed_subscriptions :=
            disposed_subscriptions w ++
            [onDidReceiveMessage_subscription this;
             onDidDispose_subscription this];
          console := console w |}.
Proof.
  intros Hl (Hd & Hlisten & _ & Hds). unfold dispose. rewrite dispose_rec_S.
  rewrite (WebviewPanel_dispose_live _ this _ o); [| exact Hl | exact Hd].
  cbn zeta. rewrite Hlisten.
  set (w1 := set_heap _ (set_currentPanel None w)).
  assert (Hl1 : heap w1 !! this = Some (with_panel (set_disposed true) o)).
  { apply (mark_lookup this (set_currentPanel None w) o Hl). }
  rewrite (dispose_rec_marked 0 this w1 _ Hl1 eq_refl Hds).
  cbn [mbind option_bind heap].
  rewrite list_lookup_insert_eq
    by (unfold w1; cbn [heap set_heap set_currentPanel];
        rewrite length_alter; eapply lookup_lt_Some, Hl).
  cbn [mbind option_bind with_disposables _disposables length].
  erewrite dispose_loop_done;
    [| cbn [heap]; apply list_lookup_insert_eq; unfold w1;
       cbn [heap set_heap set_currentPanel]; rewrite length_alter;
       eapply lookup_lt_Some, Hl
     | reflexivity].
  unfold w1. cbn [heap set_heap set_currentPanel stores posted revealed
                  disposed_subscriptions console].
  by rewrite (insert_mark this (heap w) o _ Hl).
Qed.

(** When the panel of an instance as built is disposed by the host,
    because the user closes it or because [render] finds it current and with
    the focus, the outcome is that of [dispose] on the instance: the listener
    on [onDidDispose] does all of it. *)
Lemma close_built_eq context store w current o :
  currentPanel w = Some current →
  heap w !! current = Some o →
  built current o →
  active (_panel o) = true →
  render context store w = dispose current w ∧
  WebviewPanel_dispose (dispose current) current w = dispose current w.
Proof.
  intros Hc Hl Hb Ha.
  assert (Hclose : WebviewPanel_dispose (dispose current) current w =
                   dispose current w).
  { rewrite (dispose_built_eq current w o Hl Hb).
    destruct Hb as (Hd & Hlisten & _ & Hds).
    rewrite (WebviewPanel_dispose_live _ current w o Hl Hd). cbn zeta.
    rewrite Hlisten. unfold dispose.
    rewrite (dispose_rec_marked 1 current
               (set_heap (alter (with_panel (set_disposed true)) current (heap w)) w)
               (with_panel (set_disposed true) o)
               (mark_lookup current w o Hl) eq_refl Hds).
    cbn [heap set_heap stores posted revealed disposed_subscriptions console].
    by rewrite (insert_mark current (heap w) o _ Hl). }
  split; [| exact Hclose].
  rewrite (render_dispose _ _ _ current o Hc Hl Ha). exact Hclose.
Qed.

(** [dispose] on an instance that is disposed already and holds no
    disposable does one thing: it clears [currentPanel], whichever panel is
    the current one. *)
Lemma dispose_spent_eq this w o :
  heap w !! this = Some o →
  disposed (_panel o) = true →
  _disposables o = [] →
  dispose this w = Some (set_currentPanel None w).
Proof.
  intros Hl Hd Hds. unfold dispose. rewrite dispose_rec_S.
  rewrite (WebviewPanel_dispose_disposed _ this _ o); [| exact Hl | exact Hd].
  change (Some (set_currentPanel None w) ≫= _) with
    (o ← heap w !! this;
     dispose_loop (S (length (_disposables o))) this (set_currentPanel None w)).
  rewrite Hl. cbn [mbind option_bind].
  apply (dispose_loop_done _ this (set_currentPanel None w) o Hl Hds).
Qed.

(** *** Runs *)

Lemma messageListener_frame this message w w' :
  listener this message w = Some w' →
  heap w' = heap w ∧ currentPanel w' = currentPanel w ∧ posted w' = posted w.
Proof.
  unfold messageListener. cbn zeta.
  destruct (scope message), (type message), (heap w !! this);
    simpl; intros [= <-]; repeat split.
Qed.

Lemma receiveMessage_frame h message w w' :
  receiveMessage reducer userActions workspaceActions h message w = Some w' →
  heap w' = heap w ∧ currentPanel w' = currentPanel w ∧ posted w' = posted w.
Proof.
  unfold receiveMessage. destruct (heap w !! h) as [o |]; [| discriminate].
  simpl. destruct (onDidReceiveMessage (_panel o)).
  - apply messageListener_frame.
  - intros [= <-]. repeat split.
Qed.

Lemma wellformed_same w w' :
  heap w' = heap w → currentPanel w' = currentPanel w →
  wellformed w → wellformed w'.
Proof. unfold wellformed. intros -> ->. auto. Qed.

Lemma wellformed_no_current w :
  wellformed w → wellformed (set_currentPanel None w).
Proof. intros [Hall _]. split; [exact Hall | discriminate]. Qed.

Lemma wellformed_after_dispose this w o w' :
  wellformed w → heap w !! this = Some o →
  currentPanel w' = None →
  heap w' = <[this := dispose_instance o]> (heap w) →
  wellformed w'.
Proof.
  intros [Hall _] Hl Hc Hh. split; [| rewrite Hc; discriminate].
  intros h o' Hl'. rewrite Hh in Hl'.
  destruct (decide (this = h)) as [-> | Hne].
  - rewrite list_lookup_insert_eq in Hl' by (eapply lookup_lt_Some, Hl).
    injection Hl' as <-. right. repeat split.
  - rewrite list_lookup_insert_ne in Hl' by exact Hne. eauto.
Qed.

Lemma wellformed_dispose this w w' :
  wellformed w → dispose this w = Some w' → wellformed w'.
Proof.
  intros Hwf Hrun.
  destruct (lookup_lt_is_Some_2 _ _ (dispose_Some_lookup _ _ _ Hrun)) as [o Hl].
  destruct (proj1 Hwf this o Hl) as [Hb | (Hd & _ & _ & Hds)].
  - rewrite (dispose_built_eq this w o Hl Hb) in Hrun. injection Hrun as <-.
    by eapply wellformed_after_dispose.
  - rewrite (dispose_spent_eq this w o Hl Hd Hds) in Hrun. injection Hrun as <-.
    by apply wellformed_no_current.
Qed.

Lemma wellformed_close h w w' :
  wellformed w → WebviewPanel_dispose (dispose h) h w = Some w' → wellformed w'.
Proof.
  intros Hwf Hrun.
  destruct (lookup_lt_is_Some_2 _ _ (close_Some_lookup _ _ _ _ Hrun)) as [o Hl].
  destruct (proj1 Hwf h o Hl) as [Hb | (Hd & _)].
  - pose proof Hb as (Hd & Hlisten & _ & Hds).
    rewrite (WebviewPanel_dispose_live _ h w o Hl Hd) in Hrun. cbn zeta in Hrun.
    rewrite Hlisten in Hrun. unfold dispose in Hrun.
    rewrite (dispose_rec_marked 1 h
               (set_heap (alter (with_panel (set_disposed true)) h (heap w)) w)
               (with_panel (set_disposed true) o)
               (mark_lookup h w o Hl) eq_refl Hds) in Hrun.
    injection Hrun as <-.
    eapply (wellformed_after_dispose h w o); [exact Hwf | exact Hl | reflexivity |].
    cbn [heap set_heap]. by rewrite (insert_mark h (heap w) o _ Hl).
  - rewrite (WebviewPanel_dispose_disposed _ h w o Hl Hd) in Hrun. congruence.
Qed.

Lemma wellformed_render context store w w' :
  wellformed w → render context store w = Some w' → wellformed w'.
Proof.
  intros Hwf Hrun. destruct (currentPanel w) as [current |] eqn:Hc.
  - destruct (proj2 Hwf current Hc) as (_ & o & Hl & Hb).
    destruct (active (_panel o)) eqn:Ha.
    + rewrite (render_dispose _ _ _ current o Hc Hl Ha) in Hrun.
      by eapply wellformed_close.
    + rewrite (render_reveal _ _ _ current o Hc Hl Ha) in Hrun.
      injection Hrun as <-. by eapply wellformed_same.
  - rewrite (render_create _ _ _ Hc) in Hrun. injection Hrun as <-.
    destruct Hwf as [Hall _].
    split; simpl.
    + intros h o Hl. apply lookup_snoc_Some in Hl as [[_ Hl] | [-> <-]];
        [by eauto |]. left. repeat split.
    + intros h Hh. injection Hh as <-.
      split; [rewrite length_app; simpl; lia |].
      eexists. split; [apply lookup_snoc_last |]. repeat split.
Qed.

Lemma wellformed_focus h b w : wellformed w → wellformed (focus h b w).
Proof.
  assert (Hlook : ∀ k o',
            heap (focus h b w) !! k = Some o' →
            ∃ o, heap w !! k = Some o ∧
                 (built k o → built k o') ∧ (spent o → spent o')).
  { intros k o'. unfold focus. cbn [heap set_heap].
    rewrite list_lookup_alter. case_decide.
    - subst. destruct (heap w !! k) as [o |]; simpl; [| discriminate].
      intros [= <-].
      exists o. split; [reflexivity |].
      split; intros (? & ? & ? & ?); repeat split; assumption.
    - intros Hl. exists o'. auto. }
  intros [Hall Hcur]. split.
  - intros k o' Hl'. destruct (Hlook k o' Hl') as (o & Hl & Hb & Hs).
    destruct (Hall k o Hl); auto.
  - intros k Hc. destruct (Hcur k Hc) as (Hlen & o & Hl & Hb).
    split; [unfold focus; cbn [heap set_heap]; by rewrite length_alter |].
    unfold focus. cbn [heap set_heap]. rewrite list_lookup_alter.
    case_decide; subst; rewrite Hl; simpl; eexists; (split; [reflexivity |]);
      [| exact Hb].
    destruct Hb as (? & ? & ? & ?). repeat split; assumption.
Qed.

(** In every world of a run, whatever the extension, the user and the
    webviews do, each instance is either as the constructor built it (panel
    live, both listeners attached, its two subscriptions as disposables) or
    spent (panel disposed, no listener attached, no disposable), and the
    current panel, when there is one, is the instance built last and is
    live. *)
Lemma run_wellformed_inv s w :
  run reducer userActions workspaceActions messagesToWebview extensionUri
    Uri_joinPath _getWebviewContent s w →
  wellformed w.
Proof.
  induction 1 as [| context store w w' _ IH Hrun
                  | this w w' _ IH Hrun
                  | h w w' _ IH Hrun
                  | h b w _ IH
                  | h message w w' _ IH Hrun
                  | this slice w w' _ IH Hrun].
  - split; simpl; [intros h o Hl | intros h Hc]; discriminate.
  - by eapply wellformed_render.
  - by eapply wellformed_dispose.
  - by eapply wellformed_close.
  - by apply wellformed_focus.
  - destruct (receiveMessage_frame _ _ _ _ Hrun) as (Hh & Hc & _).
    by eapply wellformed_same.
  - destruct (updateWebview_Some _ _ _ _ Hrun) as (_ & ->).
    by eapply wellformed_same.
Qed.

(** In every world of a run, a message from the webview of a disposed
    panel is dropped: nothing is dispatched and nothing is logged.  A message
    from the webview of a live panel reaches the listener. *)
Lemma receiveMessage_run s w h o message :
  run reducer userActions workspaceActions messagesToWebview extensionUri
    Uri_joinPath _getWebviewContent s w →
  heap w !! h = Some o →
  receiveMessage reducer userActions workspaceActions h message w =
  if disposed (_panel o) then Some w else listener h message w.
Proof.
  intros Hrun Hl. unfold receiveMessage. rewrite Hl. simpl.
  destruct (proj1 (run_wellformed_inv s w Hrun) h o Hl)
    as [(Hd & _ & Hm & _) | (Hd & _ & Hm & _)]; by rewrite Hd, Hm.
Qed.

(** *** What the life cycle leaves alone *)

Lemma render_Some_lookup context store w w' current :
  render context store w = Some w' → currentPanel w = Some current →
  is_Some (heap w !! current).
Proof.
  intros Hrun Hc. destruct (heap w !! current) as [o |] eqn:Hl; [eauto |].
  unfold render in Hrun. rewrite Hc, Hl in Hrun. discriminate.
Qed.

Lemma render_frame context store w w' :
  render context store w = Some w' →
  stores w' = stores w ∧ console w' = console w ∧
  match currentPanel w with
  | Some _ => posted w' = posted w ∧ length (heap w') = length (heap w)
  | None =>
      posted w' =
        posted w ++
        [(length (heap w),
          msg_reloadWebview messagesToWebview (getState (stores w store)))] ∧
      length (heap w') = S (length (heap w))
  end.
Proof.
  intros Hrun. destruct (currentPanel w) as [current |] eqn:Hc.
  - destruct (render_Some_lookup _ _ _ _ current Hrun Hc) as [o Hl].
    destruct (active (_panel o)) eqn:Ha.
    + rewrite (render_dispose _ _ _ current o Hc Hl Ha) in Hrun.
      destruct (close_spec current w o Hl) as (w2 & Hrun2 & Hframe & _).
      assert (w2 = w') as -> by congruence.
      pose proof (dispose_frame_length _ _ Hframe).
      destruct Hframe as (_ & ? & ? & _ & ?). auto.
    + rewrite (render_reveal _ _ _ current o Hc Hl Ha) in Hrun.
      injection Hrun as <-. repeat split.
  - rewrite (render_create _ _ _ Hc) in Hrun. injection Hrun as <-.
    simpl. repeat split. rewrite length_app. simpl. lia.
Qed.

Lemma dispose_keeps this w w' :
  dispose this w = Some w' →
  stores w' = stores w ∧ console w' = console w ∧ posted w' = posted w ∧
  length (heap w') = length (heap w).
Proof.
  intros Hrun.
  destruct (lookup_lt_is_Some_2 _ _ (dispose_Some_lookup _ _ _ Hrun)) as [o Hl].
  destruct (dispose_spec this w o Hl) as (w2 & Hrun2 & _ & Hframe & _).
  assert (w2 = w') as -> by congruence.
  pose proof (dispose_frame_length _ _ Hframe).
  destruct Hframe as (_ & ? & ? & _ & ?). auto.
Qed.

(** *** Messages, one after the other *)

Lemma listener_counts this o message w :
  heap w !! this = Some o →
  ∃ w', listener this message w = Some w' ∧
        heap w' = heap w ∧
        length (dispatched (stores w' (_store o))) =
          length (dispatched (stores w (_store o))) +
          (if recognized message then 1 else 0) ∧
        length (console w') =
          length (console w) + (if recognized message then 0 else 1).
Proof.
  intros Hl. unfold messageListener, recognized. cbn zeta.
  destruct (scope message), (type message); rewrite ?Hl; simpl;
    eexists; (split; [reflexivity |]); unfold store_dispatch, dispatch;
    cbn [heap stores console set_stores console_error dispatched];
    rewrite ?fn_lookup_insert; cbn [dispatched];
    rewrite ?length_app; simpl; repeat split; lia.
Qed.


(** *** What each webview is sent *)

Lemma posted_to_app h w w' ms :
  posted w' = posted w ++ ms →
  posted_to h w' = posted_to h w ++ (filter (λ p, p.1 = h) ms).*2.
Proof. intros Hp. unfold posted_to. by rewrite Hp, filter_app, fmap_app. Qed.

Lemma reload_first_same w w' :
  posted w' = posted w → length (heap w') = length (heap w) →
  reload_first messagesToWebview w → reload_first messagesToWebview w'.
Proof. unfold reload_first, posted_to. intros -> ->. auto. Qed.

Lemma reload_first_post w w' k m :
  posted w' = posted w ++ [(k, m)] → length (heap w') = length (heap w) →
  k < length (heap w) →
  reload_first messagesToWebview w → reload_first messagesToWebview w'.
Proof.
  intros Hp Hlen Hk Hinv h. rewrite Hlen, (posted_to_app h w w' _ Hp).
  destruct (Hinv h) as [Hold Hnew]. split.
  - intros Hh. destruct (Hold Hh) as (state & rest & ->). eauto.
  - intros Hh. rewrite (Hnew Hh). rewrite filter_cons, filter_nil.
    simpl. case_decide; [lia | reflexivity].
Qed.

Lemma reload_first_create w w' state :
  posted w' = posted w ++ [(length (heap w), msg_reloadWebview messagesToWebview state)] →
  length (heap w') = S (length (heap w)) →
  reload_first messagesToWebview w → reload_first messagesToWebview w'.
Proof.
  intros Hp Hlen Hinv h. rewrite Hlen, (posted_to_app h w w' _ Hp).
  destruct (Hinv h) as [Hold Hnew].
  rewrite filter_cons, filter_nil. simpl. split.
  - intros Hh. destruct (decide (h < length (heap w))) as [Hlt | Hge].
    + destruct (Hold Hlt) as (st & rest & ->). eauto.
    + rewrite Hnew by lia. case_decide; [simpl; eauto | lia].
  - intros Hh. rewrite Hnew by lia. case_decide; [lia | reflexivity].
Qed.

Lemma run_reload_first s w :
  run reducer userActions workspaceActions messagesToWebview extensionUri
    Uri_joinPath _getWebviewContent s w →
  reload_first messagesToWebview w.
Proof.
  induction 1 as [| context store w w' _ IH Hrun
                  | this w w' _ IH Hrun
                  | h w w' _ IH Hrun
                  | h b w _ IH
                  | h message w w' _ IH Hrun
                  | this slice w w' _ IH Hrun].
  - intros h. unfold posted_to. simpl. split; [lia | reflexivity].
  - destruct (render_frame _ _ _ _ Hrun) as (_ & _ & Hcase).
    destruct (currentPanel w).
    + destruct Hcase. by eapply reload_first_same.
    + destruct Hcase. by eapply reload_first_create.
  - destruct (dispose_keeps _ _ _ Hrun) as (_ & _ & ? & ?).
    by eapply reload_first_same.
  - destruct (lookup_lt_is_Some_2 _ _ (close_Some_lookup _ _ _ _ Hrun)) as [o Hl].
    destruct (close_spec h w o Hl) as (w2 & Hrun2 & Hframe & _).
    assert (w2 = w') as -> by congruence.
    pose proof (dispose_frame_length _ _ Hframe).
    destruct Hframe as (_ & _ & ? & _). by eapply reload_first_same.
  - eapply reload_first_same; [| | exact IH]; [reflexivity |].
    unfold focus. cbn [heap set_heap]. apply length_alter.
  - destruct (receiveMessage_frame _ _ _ _ Hrun) as (Hh & _ & Hp).
    eapply reload_first_same; [exact Hp | by rewrite Hh | exact IH].
  - destruct (updateWebview_Some _ _ _ _ Hrun) as (Hlt & ->).
    eapply reload_first_post; [| | exact Hlt | exact IH]; reflexivity.
Qed.

Lemma listener_other_stores this o message w w' :
  heap w !! this = Some o → listener this message w = Some w' →
  ∀ r, r ≠ _store o → stores w' r = stores w r.
Proof.
  intros Hl. unfold messageListener. cbn zeta.
  destruct (scope message), (type message); rewrite ?Hl; simpl;
    intros [= <-] r Hr; unfold store_dispatch; cbn [stores set_stores console_error];
    rewrite ?fn_lookup_insert_ne by congruence; reflexivity.
Qed.

(** *** The life cycle and the bridge together *)

(** X1. [dispose] on an instance as the constructor built it: no panel is
    current afterwards, the instance is spent (panel disposed, both listeners
    detached, no disposable left), its two subscriptions were disposed, the
    one of the message listener first, and every other instance, the stores,
    the webviews and the console are as they were. *)
Theorem dispose_of_built_instance this w o :
  heap w !! this = Some o →
  built this o →
  dispose this w =
  Some {| currentPanel := None;
          heap := <[this := dispose_instance o]> (heap w);
          stores := stores w; posted := posted w; revealed := revealed w;
          disposed_subscriptions :=
            disposed_subscriptions w ++
            [onDidReceiveMessage_subscription this;
             onDidDispose_subscription this];
          console := console w |}.
Proof. apply dispose_built_eq. Qed.

(** X2. When the panel of an instance as built is disposed by the host,
    because the user closes it or because [render] finds it current and with
    the focus, the outcome is that of [dispose] on the instance: the listener
    on [onDidDispose] does all of it. *)
Theorem host_dispose_is_dispose context store w current o :
  currentPanel w = Some current →
  heap w !! current = Some o →
  built current o →
  active (_panel o) = true →
  render context store w = dispose current w ∧
  WebviewPanel_dispose (dispose current) current w = dispose current w.
Proof. apply close_built_eq. Qed.


(** X4. In every world of a run, whatever the extension, the user and the
    webviews do, each instance is either as the constructor built it (panel
    live, both listeners attached, its two subscriptions as disposables) or
    spent (panel disposed, no listener attached, no disposable), and the
    current panel, when there is one, is the instance built last and is
    live. *)
Theorem run_wellformed s w :
  run reducer userActions workspaceActions messagesToWebview extensionUri
    Uri_joinPath _getWebviewContent s w →
  wellformed w.
Proof. apply run_wellformed_inv. Qed.

(** X5. In every world of a run, a message from the webview of a disposed
    panel is dropped: nothing is dispatched and nothing is logged.  A message
    from the webview of a live panel reaches the listener. *)
Theorem receiveMessage_after_dispose s w h o message :
  run reducer userActions workspaceActions messagesToWebview extensionUri
    Uri_joinPath _getWebviewContent s w →
  heap w !! h = Some o →
  receiveMessage reducer userActions workspaceActions h message w =
  if disposed (_panel o) then Some w else listener h message w.
Proof. apply receiveMessage_run. Qed.

(** X6. The life cycle never touches a store or the console: whatever branch
    [render] takes and whatever instance [dispose] runs on, every store has
    the state and the history it had, and no error line is written. *)
Theorem lifecycle_keeps_stores context store this w w' :
  render context store w = Some w' ∨ dispose this w = Some w' →
  stores w' = stores w ∧ console w' = console w.
Proof.
  intros [Hrun | Hrun].
  - destruct (render_frame _ _ _ _ Hrun) as (? & ? & _). auto.
  - destruct (dispose_keeps _ _ _ Hrun) as (? & ? & _). auto.
Qed.


(** X8. In every world of a run, the first message the webview of an
    existing instance was sent is a [reloadWebview] message, so every
    [syncData] comes after it; and no message was sent to a webview before
    its instance was made. *)
Theorem reloadWebview_comes_first s w h :
  run reducer userActions workspaceActions messagesToWebview extensionUri
    Uri_joinPath _getWebviewContent s w →
  (h < length (heap w) →
   ∃ state rest,
     posted_to h w = msg_reloadWebview messagesToWebview state :: rest) ∧
  (length (heap w) ≤ h → posted_to h w = []).
Proof. intros Hrun. apply (run_reload_first s w Hrun h). Qed.

(** X9. [render] twice on a current panel that is as built and has the
    focus closes it and opens another: the first call leaves the instance
    spent and no panel current, the second makes a new instance, as built,
    on the store of the second call, makes it current and sends it that
    store's state. *)
Theorem render_twice_reopens context1 store1 context2 store2 w current o :
  currentPanel w = Some current →
  heap w !! current = Some o →
  built current o →
  active (_panel o) = true →
  ∃ w1 w2 o1 o2,
    render context1 store1 w = Some w1 ∧
    render context2 store2 w1 = Some w2 ∧
    currentPanel w1 = None ∧
    currentPanel w2 = Some (length (heap w)) ∧
    heap w2 !! current = Some o1 ∧ spent o1 ∧
    heap w2 !! length (heap w) = Some o2 ∧
    built (length (heap w)) o2 ∧ _store o2 = store2 ∧
    posted w2 =
      posted w ++
      [(length (heap w),
        msg_reloadWebview messagesToWebview (getState (stores w store2)))].
Proof.
  intros Hc Hl Hb Ha.
  pose proof (lookup_lt_Some _ _ _ Hl) as Hlt.
  destruct (close_built_eq context1 store1 w current o Hc Hl Hb Ha) as [Hr1 _].
  rewrite (dispose_built_eq current w o Hl Hb) in Hr1.
  eexists _, _, _, _. split; [exact Hr1 |].
  split; [apply render_create; reflexivity |].
  cbn [currentPanel heap set_currentPanel postMessage set_heap stores posted].
  rewrite length_insert.
  split; [reflexivity |]. split; [reflexivity |].
  split; [rewrite lookup_app_l by (by rewrite length_insert);
          by apply list_lookup_insert_eq |].
  split; [repeat split |].
  split; [rewrite <- (length_insert (heap w) current (dispose_instance o));
          apply lookup_snoc_last |].
  repeat split; simpl; by rewrite ?length_insert.
Qed.

(** X10. A panel dispatches to the store it was rendered with: after
    [render] made a panel on [store], a message from its webview adds one
    action to that store when it is recognized and none otherwise, and
    leaves every other store as it was. *)
Theorem new_panel_dispatches_to_its_store context store message w :
  currentPanel w = None →
  ∃ w1 w2,
    render context store w = Some w1 ∧
    receiveMessage reducer userActions workspaceActions
      (length (heap w)) message w1 = Some w2 ∧
    length (dispatched (stores w2 store)) =
      length (dispatched (stores w store)) +
      (if recognized message then 1 else 0) ∧
    (∀ r, r ≠ store → stores w2 r = stores w r).
Proof.
  intros Hc. rewrite (render_create _ _ _ Hc).
  set (w1 := set_currentPanel _ _).
  assert (Hl1 : ∃ o1, heap w1 !! length (heap w) = Some o1 ∧
                      _store o1 = store ∧ onDidReceiveMessage (_panel o1) = true).
  { eexists. split; [apply lookup_snoc_last |]. split; reflexivity. }
  destruct Hl1 as (o1 & Hl1 & Hs1 & Hon1).
  destruct (listener_counts (length (heap w)) o1 message w1 Hl1)
    as (w2 & Hrun2 & _ & Hd2 & _).
  exists w1, w2. split; [reflexivity |].
  split; [unfold receiveMessage; by rewrite Hl1; simpl; rewrite Hon1 |].
  rewrite Hs1 in Hd2. split; [exact Hd2 |].
  intros r Hr.
  apply (listener_other_stores _ o1 message w1 w2 Hl1 Hrun2).
  by rewrite Hs1.
Qed.

End Properties.

(** ** The action set is chosen by the scope alone *)

(** C2. The action set the listener dispatches from is selected by the scope
    of the message and by nothing else.  With scope user the action is made
    by a creator of [userActions] and the outcome is the same whatever the
    workspace set is; with scope workspace it is made by a creator of
    [workspaceActions] and the outcome is the same whatever the user set is;
    with any other scope neither set is used.  So an action of the other
    scope's set is never dispatched. *)
Theorem storeActions_selected_by_scope
    {Payload Action RootState MessageToWebview Uri Html : Type}
    (reducer : RootState → Action → RootState)
    (userActions workspaceActions otherUser otherWorkspace : StoreActions Payload Action)
    (this : handle) (w : World Action RootState MessageToWebview Uri Html)
    (ty : MessageActionsFromWebview.t) (pl : Payload) (raw : string) :
  let creators : list (StoreActions Payload Action → Payload → Action) :=
    [addTodo; deleteTodo; toggleTodo; editTodo; reorderTodo] in
  let message s := {| type := ty; scope := s; payload := pl |} in
  (messageListener reducer userActions workspaceActions this (message TodoScope.user) w =
   messageListener reducer userActions otherWorkspace this (message TodoScope.user) w) ∧
  (messageListener reducer userActions workspaceActions this (message TodoScope.workspace) w =
   messageListener reducer otherUser workspaceActions this (message TodoScope.workspace) w) ∧
  (messageListener reducer userActions workspaceActions this (message (TodoScope.other raw)) w =
   messageListener reducer otherUser otherWorkspace this (message (TodoScope.other raw)) w) ∧
  (∀ o, heap w !! this = Some o → known_type ty = true →
     ∃ creator, creator ∈ creators ∧
       messageListener reducer userActions workspaceActions this
         (message TodoScope.user) w =
       Some (store_dispatch reducer (_store o) (creator userActions pl) w)) ∧
  (∀ o, heap w !! this = Some o → known_type ty = true →
     ∃ creator, creator ∈ creators ∧
       messageListener reducer userActions workspaceActions this
         (message TodoScope.workspace) w =
       Some (store_dispatch reducer (_store o) (creator workspaceActions pl) w)).
Proof.
  cbn zeta. split; [reflexivity |]. split; [reflexivity |]. split; [reflexivity |].
  split; intros o Hl Hty; unfold messageListener; cbn; rewrite Hl; cbn;
    (destruct ty; try discriminate Hty;
     [ exists addTodo | exists deleteTodo | exists toggleTodo
     | exists editTodo | exists reorderTodo ]);
    (split; [repeat constructor | reflexivity]).
Qed.

(** ** Runs of the concrete extension *)

Module Runs.
Import Sample.

Abbreviation reachable :=
  (reachable messagesToWebview extensionUri Uri_joinPath _getWebviewContent
     empty_stores).

Lemma step1 : render () 0 w0 = Some w1.
Proof. vm_compute. reflexivity. Qed.
Lemma step2 : dispose 0 w1 = Some w2.
Proof. vm_compute. reflexivity. Qed.
Lemma step3 : render () 0 w2 = Some w3.
Proof. vm_compute. reflexivity. Qed.
Lemma step4 : dispose 0 w3 = Some w4.
Proof. vm_compute. reflexivity. Qed.
Lemma step5 : render () 0 w4 = Some w5.
Proof. vm_compute. reflexivity. Qed.

(** C4 fails as stated: [render] and [dispose] alone lead to a world with
    two live webview panels.  The first panel is disposed, a second one is
    made, [dispose] runs once more on the first instance and clears
    [currentPanel] although the second panel is the current one, and the
    next [render] makes a third panel beside the second. *)
Lemma stale_dispose_two_live_panels :
  ∃ w : World, run_stale = Some w ∧ reachable w ∧ live_count w = 2.
Proof.
  exists w5. split; [vm_compute; reflexivity |]. split; [| vm_compute; reflexivity].
  eapply reachable_render; [| exact step5].
  eapply reachable_dispose; [| exact step4].
  eapply reachable_render; [| exact step3].
  eapply reachable_dispose; [| exact step2].
  eapply reachable_render; [| exact step1].
  apply reachable_init.
Qed.

(** *** The theorems at work on the concrete extension *)

Lemma w1_panel : ∃ o, heap w1 !! 0 = Some o ∧ _store o = 0 ∧ active (_panel o) = true.
Proof. eexists. vm_compute. repeat split. Defined.

(** In [w1] the listener of the panel receives [add_user]. *)
Lemma messageListener_dispatches_witness :
  known_type (type add_user) = true ∧
  ∃ w', listener 0 add_user w1 = Some w' ∧
        dispatched (stores w' 0) = [action TodoScope.user "addTodo" 7].
Proof.
  split; [reflexivity |].
  destruct w1_panel as (o & Ho & Hs & _).
  destruct (messageListener_dispatches reducer userActions workspaceActions
              0 o w1 add_user userActions Ho
              (or_introl (conj eq_refl eq_refl)) eq_refl)
    as (creator & w' & Hrun & _ & Hd & Hadd & _).
  exists w'. split; [exact Hrun |].
  destruct Hd as (Hd & _). rewrite Hs in Hd. rewrite Hd, (Hadd eq_refl).
  reflexivity.
Defined.

Lemma updateWebview_posts_witness :
  ∃ w', updateWebview messagesToWebview 0 [1; 2] w1 = Some w' ∧
        posted w' = [(0, reloadWebview_message []); (0, syncData_message [1; 2])].
Proof.
  destruct w1_panel as (o & Hl & _).
  assert (Hd : disposed (_panel o) = false).
  { vm_compute in Hl. injection Hl as <-. reflexivity. }
  destruct (proj1 (updateWebview_posts (Action := Action) messagesToWebview
                     0 o [1; 2] w1 Hl) Hd) as (w' & Hrun & Hposted & _).
  exists w'. split; [exact Hrun |]. rewrite Hposted. reflexivity.
Defined.

Lemma storeActions_selected_by_scope_witness :
  listener 0 add_user w1 =
  messageListener reducer userActions (actions_of (TodoScope.other "none")) 0
    add_user w1.
Proof.
  exact (proj1 (storeActions_selected_by_scope reducer userActions workspaceActions
                  userActions (actions_of (TodoScope.other "none")) 0 w1
                  MessageActionsFromWebview.addTodo 7 "")).
Defined.

Lemma unrecognized_only_logs_witness :
  recognized unknown_tag = false ∧
  ∃ w', listener 0 unknown_tag w1 = Some w' ∧
        console w' = ["Action not found"] ∧
        stores w' = stores w1.
Proof.
  split; [reflexivity |].
  destruct (unrecognized_only_logs reducer userActions workspaceActions
              0 w1 unknown_tag eq_refl)
    as (line & w' & Hrun & _ & Hline & Hconsole & Hstores & _).
  exists w'. split; [exact Hrun |]. split; [| exact Hstores].
  rewrite Hconsole, Hline. reflexivity.
Defined.

Lemma messageListener_deterministic_witness :
  ∃ acts, length acts ≤ 1 ∧
    ∃ w', listener 0 add_user w1 = Some w' ∧
          dispatched (stores w' 0) = dispatched (stores w1 0) ++ acts.
Proof.
  destruct (messageListener_deterministic
              (MessageToWebview := MessageToWebview) (Uri := string) (Html := string)
              reducer userActions workspaceActions add_user)
    as (acts & Hlen & Hruns).
  exists acts. split; [exact Hlen |].
  destruct w1_panel as (o & Ho & Hs & _).
  destruct (Hruns 0 w1 o Ho) as (w' & Hrun & Hd & _).
  exists w'. split; [exact Hrun |].
  rewrite Hs in Hd. exact Hd.
Defined.

Lemma dispose_disposes_witness :
  ∃ w', dispose 0 w1 = Some w' ∧
        currentPanel w' = None ∧
        disposed_subscriptions w' =
          [onDidReceiveMessage_subscription 0; onDidDispose_subscription 0].
Proof.
  destruct w1_panel as (o & Ho & _).
  destruct (dispose_disposes 0 w1 o Ho)
    as (w' & o' & Hrun & Hnone & _ & _ & _ & _ & Hlog).
  exists w'. split; [exact Hrun |]. split; [exact Hnone |].
  rewrite Hlog. vm_compute in Ho. injection Ho as <-. reflexivity.
Defined.

Lemma dispose_idempotent_witness :
  ∃ w', dispose 0 w1 = Some w' ∧ dispose 0 w' = Some w'.
Proof.
  destruct w1_panel as (o & Ho & _).
  destruct (dispose_idempotent 0 w1 o Ho) as (w' & o' & Hrun & Hagain & _).
  exists w'. split; assumption.
Defined.

Lemma new_panel_reloads_witness :
  currentPanel w0 = None ∧
  ∃ w', render () 0 w0 = Some w' ∧ posted w' = [(0, reloadWebview_message [])].
Proof.
  split; [reflexivity |].
  destruct (proj2 (new_panel_reloads messagesToWebview extensionUri Uri_joinPath
                     _getWebviewContent () 0 w0) eq_refl)
    as (w' & Hrun & Hposted & _).
  exists w'. split; [exact Hrun |]. rewrite Hposted. reflexivity.
Defined.

Lemma w1_current : ∀ h, currentPanel w1 = Some h → h < length (heap w1).
Proof. intros h Hc. vm_compute in Hc. injection Hc as <-. vm_compute. lia. Defined.

(** [w1] has a current panel with the focus: [render] disposes it. *)
Lemma render_branches_witness :
  ∃ w' o', render () 0 w1 = Some w' ∧
           heap w' !! 0 = Some o' ∧ disposed (_panel o') = true.
Proof.
  destruct (render_branches messagesToWebview extensionUri Uri_joinPath
              _getWebviewContent () 0 w1 w1_current)
    as (w' & Hrun & Hfocus & _).
  destruct w1_panel as (o & Ho & _ & Ha).
  destruct (Hfocus 0 o eq_refl Ho Ha) as ((o' & Hl' & Hd') & _).
  exists w', o'. auto.
Defined.

(** [w1] comes from [w0] by [render], so it has the singleton invariant
    and at most one live panel. *)
Lemma singleton_preserved_witness : singleton w1 ∧ live_count w1 ≤ 1.
Proof.
  destruct (singleton_preserved (Action := Action) messagesToWebview
              extensionUri Uri_joinPath _getWebviewContent)
    as (Hinit & Hcount & Hrender & _).
  destruct (Hrender () 0 w0 (Hinit empty_stores)) as (w' & Hrun & Hinv & _).
  assert (Hw : w' = w1).
  { rewrite step1 in Hrun. injection Hrun as <-. reflexivity. }
  rewrite Hw in Hinv. split; [exact Hinv | apply Hcount, Hinv].
Defined.

(** *** The further theorems at work *)

Abbreviation run :=
  (run reducer userActions workspaceActions messagesToWebview extensionUri
     Uri_joinPath _getWebviewContent empty_stores).

Lemma w1_built : ∃ o, heap w1 !! 0 = Some o ∧ built 0 o ∧ active (_panel o) = true.
Proof. eexists. vm_compute. repeat split. Defined.

Lemma w2_spent :
  ∃ o, heap w2 !! 0 = Some o ∧ disposed (_panel o) = true ∧ _disposables o = [].
Proof. eexists. vm_compute. repeat split. Defined.

Lemma run_w1 : run w1.
Proof. eapply run_render; [apply run_init | exact step1]. Defined.

Lemma run_w2 : run w2.
Proof. eapply run_dispose; [exact run_w1 | exact step2]. Defined.

(** C6 fails as stated on a disposed panel: in [w2], reached by [render]
    and [dispose], [updateWebview] on the disposed instance raises and posts
    nothing. *)
Lemma updateWebview_on_disposed_panel :
  run w2 ∧
  (∃ o, heap w2 !! 0 = Some o ∧ disposed (_panel o) = true) ∧
  updateWebview messagesToWebview 0 [1; 2] w2 = None.
Proof.
  split; [exact run_w2 |]. split; [| vm_compute; reflexivity].
  eexists. vm_compute. split; reflexivity.
Qed.

Lemma dispose_of_built_instance_witness :
  ∃ w', dispose 0 w1 = Some w' ∧
        currentPanel w' = None ∧
        disposed_subscriptions w' =
          [onDidReceiveMessage_subscription 0; onDidDispose_subscription 0].
Proof.
  destruct w1_built as (o & Hl & Hb & _).
  eexists. split; [exact (dispose_of_built_instance 0 w1 o Hl Hb) |].
  split; reflexivity.
Defined.

Lemma host_dispose_is_dispose_witness : render () 0 w1 = dispose 0 w1.
Proof.
  destruct w1_built as (o & Hl & Hb & Ha).
  exact (proj1 (host_dispose_is_dispose messagesToWebview extensionUri
                  Uri_joinPath _getWebviewContent () 0 w1 0 o eq_refl Hl Hb Ha)).
Defined.


Lemma run_wellformed_witness : wellformed w1.
Proof. exact (run_wellformed _ _ _ _ _ _ _ empty_stores w1 run_w1). Defined.

Lemma receiveMessage_after_dispose_witness :
  receiveMessage reducer userActions workspaceActions 0 add_user w2 = Some w2.
Proof.
  destruct w2_spent as (o & Hl & Hd & _).
  rewrite (receiveMessage_after_dispose _ _ _ _ _ _ _ empty_stores w2 0 o
             add_user run_w2 Hl).
  by rewrite Hd.
Defined.

Lemma lifecycle_keeps_stores_witness : stores w1 = stores w0 ∧ console w1 = console w0.
Proof.
  exact (lifecycle_keeps_stores messagesToWebview extensionUri Uri_joinPath
           _getWebviewContent () 0 0 w0 w1 (or_introl step1)).
Defined.


Lemma reloadWebview_comes_first_witness :
  ∃ rest, posted_to 0 w1 = reloadWebview_message [] :: rest.
Proof.
  destruct (proj1 (reloadWebview_comes_first _ _ _ _ _ _ _ empty_stores w1 0
                     run_w1))
    as (state & rest & Hp); [vm_compute; lia |].
  exists rest. rewrite Hp. f_equal.
  assert (Hhead : head (posted_to 0 w1) = Some (reloadWebview_message []))
    by reflexivity.
  rewrite Hp in Hhead. simpl in *. congruence.
Defined.

Lemma render_twice_reopens_witness :
  ∃ w1' w2', render () 0 w1 = Some w1' ∧ render () 0 w1' = Some w2' ∧
             currentPanel w2' = Some 1.
Proof.
  destruct w1_built as (o & Hl & Hb & Ha).
  destruct (render_twice_reopens messagesToWebview extensionUri Uri_joinPath
              _getWebviewContent () 0 () 0 w1 0 o eq_refl Hl Hb Ha)
    as (wa & wb & _ & _ & Hr1 & Hr2 & _ & Hc & _).
  exists wa, wb. auto.
Defined.

Lemma new_panel_dispatches_to_its_store_witness :
  ∃ wa wb, render () 0 w0 = Some wa ∧
           receiveMessage reducer userActions workspaceActions 0 add_user wa
             = Some wb ∧
           length (dispatched (stores wb 0)) = 1.
Proof.
  destruct (new_panel_dispatches_to_its_store reducer userActions
              workspaceActions messagesToWebview extensionUri Uri_joinPath
              _getWebviewContent () 0 add_user w0 eq_refl)
    as (wa & wb & Hr & Hm & Hd & _).
  exists wa, wb. auto.
Defined.

End Runs.
